(** * A minimal HTTP/1.1 file server and its client: model and properties

    Shallow embedding of [server.py] and [client.py].  Python [str] values
    are sequences of Unicode code points, [bytes] values are sequences of
    octets.  The operating system (file system, clock, MIME database) is an
    explicit [World] value passed to every function that consults it;
    exceptions are values of an error monad.  Paths follow POSIX rules
    ([posixpath]). *)

From Stdlib Require Import List NArith ZArith Lia Bool.
From Stdlib Require Import Strings.Byte Strings.Ascii Strings.String.
From Stdlib Require Import Numbers.DecimalString Numbers.DecimalZ Numbers.DecimalN.
From Stdlib Require Import Numbers.DecimalPos.
From Stdlib Require Import Sorting.Sorted Sorting.Permutation.
Import ListNotations.

Local Open Scope list_scope.
Local Open Scope N_scope.

(** ** Data: code points, octets, literals *)

(** A Python [str]: the sequence of its code points. *)
Definition pystr := list N.

(** A Python [bytes] object. *)
Definition bytes := list byte.

(** An ASCII literal as [bytes] and as [str]. *)
Definition blit (s : string) : bytes := list_byte_of_string s.
Definition ulit (s : string) : pystr := map Byte.to_N (list_byte_of_string s).

Definition CR : N := 13.
Definition LF : N := 10.
Definition QUOTE : N := 34.

Definition byte_of_N (n : N) : byte :=
  match Byte.of_N n with Some b => b | None => x00 end.

(** ** Exceptions *)

Inductive exn : Type :=
| UnicodeDecodeError
| UnicodeEncodeError
| ValueError
| IndexError
| OSError.

Inductive result (A : Type) : Type :=
| Ok (a : A)
| Raise (e : exn).
Arguments Ok {A} a.
Arguments Raise {A} e.

Definition bind {A B} (r : result A) (k : A -> result B) : result B :=
  match r with
  | Ok a => k a
  | Raise e => Raise e
  end.

Notation "x <- r ;; k" := (bind r (fun x => k))
  (at level 61, r at next level, right associativity).

(** ** The sequence protocol shared by [str] and [bytes] *)

Class Eqb (A : Type) := {
  elt_eqb : A -> A -> bool;
  elt_eqb_eq : forall x y, elt_eqb x y = true <-> x = y
}.

#[export] Instance Eqb_N : Eqb N := {| elt_eqb := N.eqb; elt_eqb_eq := N.eqb_eq |}.
#[export] Instance Eqb_byte : Eqb byte :=
  {| elt_eqb := Byte.eqb;
     elt_eqb_eq := fun x y => conj (Byte.byte_dec_bl x y) (@Byte.byte_dec_lb x y) |}.

Section Sequences.
Context {A : Type} `{Eqb A}.

(** [s.startswith(p)] *)
Fixpoint startswith (p s : list A) : bool :=
  match p, s with
  | [], _ => true
  | _ :: _, [] => false
  | x :: p', y :: s' => elt_eqb x y && startswith p' s'
  end.

(** [s.endswith(p)] *)
Definition endswith (p s : list A) : bool := startswith (rev p) (rev s).

(** [p in s] for sequences: some position of [s] starts with [p]. *)
Fixpoint contains (p s : list A) : bool :=
  startswith p s ||
  match s with
  | [] => false
  | _ :: t => contains p t
  end.

(** [s.find(p)] scanning from offset [i]; [-1] when absent. *)
Fixpoint find_from (p s : list A) (i : Z) : Z :=
  if startswith p s then i
  else match s with
       | [] => (-1)%Z
       | _ :: t => find_from p t (i + 1)%Z
       end.

Definition find (p s : list A) : Z := find_from p s 0%Z.

(** [s.rfind(p)] for a one-element [p]: index of the last occurrence. *)
Fixpoint rfind1_from (c : A) (s : list A) (i : Z) (last : Z) : Z :=
  match s with
  | [] => last
  | x :: t => rfind1_from c t (i + 1)%Z (if elt_eqb x c then i else last)
  end.

Definition rfind1 (c : A) (s : list A) : Z := rfind1_from c s 0%Z (-1)%Z.

(** [s.split(sep)] for a non-empty separator.  [skip] counts the elements
    of a separator occurrence that are still to be passed over, [cur]
    holds the current piece in reverse. *)
Fixpoint split_go (sep : list A) (skip : nat) (cur : list A) (s : list A)
  : list (list A) :=
  match s with
  | [] => [rev cur]
  | c :: t =>
      match skip with
      | S k => split_go sep k cur t
      | O => if startswith sep s
             then rev cur :: split_go sep (Nat.pred (List.length sep)) [] t
             else split_go sep O (c :: cur) t
      end
  end.

Definition split (sep s : list A) : list (list A) := split_go sep O [] s.

(** [s.split(sep, 1)]: at most one cut, at the first occurrence. *)
Fixpoint split1_go (sep : list A) (cur : list A) (s : list A)
  : list (list A) :=
  match s with
  | [] => [rev cur]
  | c :: t =>
      if startswith sep s
      then [rev cur; skipn (List.length sep) s]
      else split1_go sep (c :: cur) t
  end.

Definition split1 (sep s : list A) : list (list A) := split1_go sep [] s.

(** [sep.join(parts)] *)
Fixpoint join (sep : list A) (parts : list (list A)) : list A :=
  match parts with
  | [] => []
  | [p] => p
  | p :: rest => p ++ sep ++ join sep rest
  end.

(** [s.lstrip(chars)] for a one-character set. *)
Fixpoint lstrip1 (c : A) (s : list A) : list A :=
  match s with
  | [] => []
  | x :: t => if elt_eqb x c then lstrip1 c t else s
  end.

(** [s.replace(a, b)] for one-character [a] and [b]. *)
Definition replace1 (a b : A) (s : list A) : list A :=
  map (fun x => if elt_eqb x a then b else x) s.

(** Slices [s[:i]] and [s[i:]] for an index that [find] returned
    (non-negative; a negative index is clamped by the callers' guards). *)
Definition slice_to (s : list A) (i : Z) : list A := firstn (Z.to_nat i) s.
Definition slice_from (s : list A) (i : Z) : list A := skipn (Z.to_nat i) s.

Definition list_eqb (a b : list A) : bool :=
  (List.length a =? List.length b)%nat && startswith a b.

End Sequences.

(** ** Codecs *)

Inductive errors_mode := Strict | Ignore | Replace.

Definition is_cont (b : byte) : bool :=
  (0x80 <=? Byte.to_N b) && (Byte.to_N b <=? 0xBF).

Definition in_range (lo hi : N) (b : byte) : bool :=
  (lo <=? Byte.to_N b) && (Byte.to_N b <=? hi).

(** One decoding event: a code point, or an ill-formed span that is handed
    to the error handler. *)
Inductive utf8_event := Cp (c : N) | Bad.

(** Range allowed for the second octet after lead [c1] (3- and 4-octet
    forms exclude overlong encodings, surrogates and values above
    U+10FFFF). *)
Definition second_lo (c1 : N) : N :=
  if c1 =? 0xE0 then 0xA0 else if c1 =? 0xF0 then 0x90 else 0x80.
Definition second_hi (c1 : N) : N :=
  if c1 =? 0xED then 0x9F else if c1 =? 0xF4 then 0x8F else 0xBF.

Definition low6 (b : byte) : N := Byte.to_N b - 0x80.

(** The UTF-8 decoder of the runtime: every ill-formed span is the lead
    octet together with the continuation octets that were still acceptable;
    decoding resumes at the first octet after the span. *)
Fixpoint utf8_scan (bs : bytes) : list utf8_event :=
  match bs with
  | [] => []
  | b1 :: t1 =>
      let c1 := Byte.to_N b1 in
      if c1 <? 0x80 then Cp c1 :: utf8_scan t1
      else if c1 <? 0xC2 then Bad :: utf8_scan t1
      else if c1 <? 0xE0 then
        match t1 with
        | b2 :: t2 =>
            if is_cont b2
            then Cp ((c1 - 0xC0) * 64 + low6 b2) :: utf8_scan t2
            else Bad :: utf8_scan t1
        | [] => [Bad]
        end
      else if c1 <? 0xF0 then
        match t1 with
        | b2 :: t2 =>
            if in_range (second_lo c1) (second_hi c1) b2 then
              match t2 with
              | b3 :: t3 =>
                  if is_cont b3
                  then Cp ((c1 - 0xE0) * 4096 + low6 b2 * 64 + low6 b3)
                       :: utf8_scan t3
                  else Bad :: utf8_scan t2
              | [] => [Bad]
              end
            else Bad :: utf8_scan t1
        | [] => [Bad]
        end
      else if c1 <? 0xF5 then
        match t1 with
        | b2 :: t2 =>
            if in_range (second_lo c1) (second_hi c1) b2 then
              match t2 with
              | b3 :: t3 =>
                  if is_cont b3 then
                    match t3 with
                    | b4 :: t4 =>
                        if is_cont b4
                        then Cp ((c1 - 0xF0) * 262144 + low6 b2 * 4096
                                 + low6 b3 * 64 + low6 b4)
                             :: utf8_scan t4
                        else Bad :: utf8_scan t3
                    | [] => [Bad]
                    end
                  else Bad :: utf8_scan t2
              | [] => [Bad]
              end
            else Bad :: utf8_scan t1
        | [] => [Bad]
        end
      else Bad :: utf8_scan t1
  end.

Definition REPLACEMENT : N := 0xFFFD.

(** The error handlers: [strict] raises at the first ill-formed span,
    [ignore] drops it, [replace] substitutes U+FFFD. *)
Fixpoint handle_events (m : errors_mode) (es : list utf8_event)
  : result pystr :=
  match es with
  | [] => Ok []
  | Cp c :: r => s <- handle_events m r ;; Ok (c :: s)
  | Bad :: r =>
      match m with
      | Strict => Raise UnicodeDecodeError
      | Ignore => handle_events m r
      | Replace => s <- handle_events m r ;; Ok (REPLACEMENT :: s)
      end
  end.

(** [bs.decode('utf-8', errors)] *)
Definition decode_utf8 (m : errors_mode) (bs : bytes) : result pystr :=
  handle_events m (utf8_scan bs).

(** [bs.decode('latin-1')]: every octet is its own code point. *)
Definition decode_latin1 (bs : bytes) : result pystr :=
  Ok (map Byte.to_N bs).

Definition is_surrogate (c : N) : bool := (0xD800 <=? c) && (c <=? 0xDFFF).

(** A code point that UTF-8 can carry. *)
Definition scalar (c : N) : bool := (c <? 0x110000) && negb (is_surrogate c).

Definition utf8_encode_cp (c : N) : result bytes :=
  if c <? 0x80 then Ok [byte_of_N c]
  else if c <? 0x800 then
    Ok [byte_of_N (0xC0 + c / 64); byte_of_N (0x80 + c mod 64)]
  else if is_surrogate c then Raise UnicodeEncodeError
  else if c <? 0x10000 then
    Ok [byte_of_N (0xE0 + c / 4096); byte_of_N (0x80 + (c / 64) mod 64);
        byte_of_N (0x80 + c mod 64)]
  else if c <? 0x110000 then
    Ok [byte_of_N (0xF0 + c / 262144); byte_of_N (0x80 + (c / 4096) mod 64);
        byte_of_N (0x80 + (c / 64) mod 64); byte_of_N (0x80 + c mod 64)]
  else Raise UnicodeEncodeError.

(** [s.encode('utf-8')] *)
Fixpoint encode_utf8 (s : pystr) : result bytes :=
  match s with
  | [] => Ok []
  | c :: t =>
      hd <- utf8_encode_cp c ;;
      tl <- encode_utf8 t ;;
      Ok (hd ++ tl)
  end.

(** ** [str] methods *)

(** [c.isspace()]: the white-space code points of the runtime. *)
Definition isspace (c : N) : bool :=
  ((0x09 <=? c) && (c <=? 0x0D)) || ((0x1C <=? c) && (c <=? 0x20))
  || (c =? 0x85) || (c =? 0xA0) || (c =? 0x1680)
  || ((0x2000 <=? c) && (c <=? 0x200A))
  || (c =? 0x2028) || (c =? 0x2029) || (c =? 0x202F) || (c =? 0x205F)
  || (c =? 0x3000).

Fixpoint lstrip_ws (s : pystr) : pystr :=
  match s with
  | [] => []
  | c :: t => if isspace c then lstrip_ws t else s
  end.

(** [s.strip()] *)
Definition strip (s : pystr) : pystr := rev (lstrip_ws (rev (lstrip_ws s))).

Definition flush_word (cur : pystr) : list pystr :=
  match cur with
  | [] => []
  | _ :: _ => [rev cur]
  end.

(** [s.split()]: the maximal runs of non-space characters. *)
Fixpoint split_ws_go (cur : pystr) (s : pystr) : list pystr :=
  match s with
  | [] => flush_word cur
  | c :: t =>
      if isspace c then flush_word cur ++ split_ws_go [] t
      else split_ws_go (c :: cur) t
  end.

Definition split_ws (s : pystr) : list pystr := split_ws_go [] s.

(** [s.lower()].  ASCII letters are folded here; the lower-case mapping of
    the code points from U+0080 on is the runtime's Unicode table,
    [lower_cp]. *)
Definition lower_with (lower_cp : N -> pystr) (s : pystr) : pystr :=
  flat_map (fun c =>
              if c <? 0x80
              then [if (0x41 <=? c) && (c <=? 0x5A) then c + 32 else c]
              else lower_cp c) s.

(** ** Integers and their decimal text *)

(** [str(z)] *)
Definition str_of_Z (z : Z) : pystr := ulit (NilZero.string_of_int (Z.to_int z)).

(** [str(n)] for a length. *)
Definition str_of_N (n : N) : pystr := ulit (NilZero.string_of_uint (N.to_uint n)).

(** [int(s)] on plain decimal literals, an optional [-] followed by ASCII
    digits.  The further spellings [int] accepts (a [+] sign, underscores,
    non-ASCII digits) do not occur in status lines written by [str_of_Z]
    and are reported as [ValueError] here. *)
Definition int_of_str (s : pystr) : result Z :=
  if forallb (fun c => c <? 256) s then
    match NilZero.int_of_string (string_of_list_byte (map byte_of_N s)) with
    | Some d => Ok (Z.of_int d)
    | None => Raise ValueError
    end
  else Raise ValueError.

(** ** [os.path] (POSIX flavour) *)

Definition SLASH : N := 47.
Definition DOT : N := 46.
Definition BACKSLASH : N := 92.
Definition PERCENT : N := 37.
Definition COLON : N := 58.

Definition is_empty {A} (s : list A) : bool :=
  match s with [] => true | _ :: _ => false end.

(** [os.path.join(a, b)] *)
Definition path_join (a b : pystr) : pystr :=
  if startswith [SLASH] b then b
  else if is_empty a || endswith [SLASH] a then a ++ b
  else a ++ [SLASH] ++ b.

(** [os.path.join(a, b, c)] *)
Definition path_join3 (a b c : pystr) : pystr := path_join (path_join a b) c.

(** The loop of [splitext] that skips leading dots of the file name: is
    there a character other than [.] before the last dot? *)
Fixpoint has_non_dot (s : pystr) : bool :=
  match s with
  | [] => false
  | c :: t => if negb (c =? DOT) then true else has_non_dot t
  end.

(** [os.path.splitext(p)] *)
Definition splitext (p : pystr) : pystr * pystr :=
  let sepIndex := rfind1 SLASH p in
  let dotIndex := rfind1 DOT p in
  if (sepIndex <? dotIndex)%Z then
    if has_non_dot (slice_to (slice_from p (sepIndex + 1)) (dotIndex - (sepIndex + 1)))
    then (slice_to p dotIndex, slice_from p dotIndex)
    else (p, [])
  else (p, []).

(** The component loop of [normpath]; [acc] is [new_comps] in reverse. *)
Fixpoint normpath_comps (initial_slashes : nat) (acc : list pystr)
  (comps : list pystr) : list pystr :=
  match comps with
  | [] => rev acc
  | comp :: rest =>
      if is_empty comp || list_eqb comp [DOT] then
        normpath_comps initial_slashes acc rest
      else if negb (list_eqb comp [DOT; DOT])
              || ((initial_slashes =? 0)%nat && is_empty acc)
              || match acc with
                 | top :: _ => list_eqb top [DOT; DOT]
                 | [] => false
                 end
      then normpath_comps initial_slashes (comp :: acc) rest
      else normpath_comps initial_slashes (tl acc) rest
  end.

(** [os.path.normpath(path)] *)
Definition normpath (path : pystr) : pystr :=
  if is_empty path then [DOT] else
  let initial_slashes :=
    if startswith [SLASH] path then
      if startswith [SLASH; SLASH] path
         && negb (startswith [SLASH; SLASH; SLASH] path)
      then 2%nat else 1%nat
    else 0%nat in
  let comps := normpath_comps initial_slashes [] (split [SLASH] path) in
  let joined := repeat SLASH initial_slashes ++ join [SLASH] comps in
  if is_empty joined then [DOT] else joined.

(** ** [urllib.parse] *)

Definition hex_digit (n : N) : N := if n <? 10 then 48 + n else 55 + n.

(** Octets that [quote] leaves alone: letters, digits, [_.-~] and the
    default [safe] character [/]. *)
Definition quote_safe (c : N) : bool :=
  ((0x41 <=? c) && (c <=? 0x5A)) || ((0x61 <=? c) && (c <=? 0x7A))
  || ((0x30 <=? c) && (c <=? 0x39))
  || (c =? 0x5F) || (c =? 0x2E) || (c =? 0x2D) || (c =? 0x7E) || (c =? SLASH).

Definition quote_byte (b : byte) : pystr :=
  let c := Byte.to_N b in
  if quote_safe c then [c]
  else [PERCENT; hex_digit (c / 16); hex_digit (c mod 16)].

(** [urllib.parse.quote(s)] *)
Definition quote (s : pystr) : result pystr :=
  bs <- encode_utf8 s ;; Ok (flat_map quote_byte bs).

Definition hex_value (c : N) : option N :=
  if (0x30 <=? c) && (c <=? 0x39) then Some (c - 0x30)
  else if (0x41 <=? c) && (c <=? 0x46) then Some (c - 0x41 + 10)
  else if (0x61 <=? c) && (c <=? 0x66) then Some (c - 0x61 + 10)
  else None.

(** [unquote_to_bytes] on an ASCII run: [%XX] with two hexadecimal digits
    becomes the octet, any other [%] stays. *)
Fixpoint unquote_to_bytes (s : pystr) : bytes :=
  match s with
  | [] => []
  | c :: t =>
      if c =? PERCENT then
        match t with
        | h1 :: (h2 :: t2) =>
            match hex_value h1, hex_value h2 with
            | Some a, Some b => byte_of_N (a * 16 + b) :: unquote_to_bytes t2
            | _, _ => byte_of_N c :: unquote_to_bytes t
            end
        | _ => byte_of_N c :: unquote_to_bytes t
        end
      else byte_of_N c :: unquote_to_bytes t
  end.

(** The events of a decoding under [errors='replace']. *)
Definition replace_events (es : list utf8_event) : pystr :=
  map (fun e => match e with Cp c => c | Bad => REPLACEMENT end) es.

(** One ASCII run of [unquote]: percent-decode, then decode the octets as
    UTF-8 with [errors='replace']. *)
Definition unquote_run (run_rev : pystr) : pystr :=
  replace_events (utf8_scan (unquote_to_bytes (rev run_rev))).

(** The alternation of ASCII runs (decoded) and other characters (kept);
    [run_rev] is the ASCII run being collected, in reverse. *)
Fixpoint unquote_parts (run_rev : pystr) (s : pystr) : pystr :=
  match s with
  | [] => unquote_run run_rev
  | c :: t =>
      if c <? 0x80 then unquote_parts (c :: run_rev) t
      else unquote_run run_rev ++ c :: unquote_parts [] t
  end.

(** [urllib.parse.unquote(s)] *)
Definition unquote (s : pystr) : pystr :=
  if negb (contains [PERCENT] s) then s else unquote_parts [] s.

(** ** [datetime] *)

Inductive weekday_t := Mon | Tue | Wed | Thu | Fri | Sat | Sun.
Inductive month_t :=
  Jan | Feb | Mar | Apr | May | Jun | Jul | Aug | Sep | Oct | Nov | Dec.

Record datetime := {
  year : N;
  month : month_t;
  day : N;
  hour : N;
  minute : N;
  second : N;
  weekday : weekday_t
}.

Definition weekday_abbr (d : weekday_t) : pystr :=
  match d with
  | Mon => ulit "Mon" | Tue => ulit "Tue" | Wed => ulit "Wed"
  | Thu => ulit "Thu" | Fri => ulit "Fri" | Sat => ulit "Sat"
  | Sun => ulit "Sun"
  end.

Definition month_abbr (m : month_t) : pystr :=
  match m with
  | Jan => ulit "Jan" | Feb => ulit "Feb" | Mar => ulit "Mar"
  | Apr => ulit "Apr" | May => ulit "May" | Jun => ulit "Jun"
  | Jul => ulit "Jul" | Aug => ulit "Aug" | Sep => ulit "Sep"
  | Oct => ulit "Oct" | Nov => ulit "Nov" | Dec => ulit "Dec"
  end.

Definition pad2 (n : N) : pystr :=
  if n <? 10 then 48 :: str_of_N n else str_of_N n.

(** [t.strftime("%a, %d %b %Y %H:%M:%S GMT")] in the C locale. *)
Definition strftime_http (t : datetime) : pystr :=
  weekday_abbr (weekday t) ++ ulit ", " ++ pad2 (day t) ++ ulit " "
  ++ month_abbr (month t) ++ ulit " " ++ str_of_N (year t) ++ ulit " "
  ++ pad2 (hour t) ++ [COLON] ++ pad2 (minute t) ++ [COLON]
  ++ pad2 (second t) ++ ulit " GMT".

(** ** The environment *)

(** What the file system answers for a path: a file ([None] when opening or
    reading it fails with [IOError]) or a readable directory with the names
    [os.listdir] reports. *)
Inductive node :=
| FileNode (content : option bytes)
| DirNode (entries : list pystr).

Record World := {
  fs : pystr -> option node;
  guess_type : pystr -> option pystr;   (* [mimetypes.guess_type(p)[0]] *)
  utcnow : datetime;
  lower_cp : N -> pystr
}.

Definition path_exists (w : World) (p : pystr) : bool :=
  match fs w p with Some _ => true | None => false end.

Definition isdir (w : World) (p : pystr) : bool :=
  match fs w p with Some (DirNode _) => true | _ => false end.

Definition listdir (w : World) (p : pystr) : result (list pystr) :=
  match fs w p with
  | Some (DirNode es) => Ok es
  | _ => Raise OSError
  end.

(** [open(p, 'rb').read()] *)
Definition read_file (w : World) (p : pystr) : result bytes :=
  match fs w p with
  | Some (FileNode (Some b)) => Ok b
  | _ => Raise OSError
  end.

Definition lower (w : World) (s : pystr) : pystr := lower_with (lower_cp w) s.

(** ** [sorted] on strings *)

(** [a <= b] on [str]: code point by code point. *)
Fixpoint str_leb (a b : pystr) : bool :=
  match a, b with
  | [], _ => true
  | _ :: _, [] => false
  | x :: a', y :: b' => (x <? y) || ((x =? y) && str_leb a' b')
  end.

Fixpoint insert_sorted (x : pystr) (l : list pystr) : list pystr :=
  match l with
  | [] => [x]
  | y :: t => if str_leb x y then x :: l else y :: insert_sorted x t
  end.

(** [sorted(l)] *)
Fixpoint sorted (l : list pystr) : list pystr :=
  match l with
  | [] => []
  | x :: t => insert_sorted x (sorted t)
  end.

(** ** server.py *)

Module Server.

(** The dictionary [SUPPORTED_MIMES], in insertion order. *)
Definition SUPPORTED_MIMES : list (pystr * pystr) :=
  [ (ulit ".html", ulit "text/html");
    (ulit ".png", ulit "image/png");
    (ulit ".pdf", ulit "application/pdf") ].

Fixpoint dict_get (k : pystr) (d : list (pystr * pystr)) : option pystr :=
  match d with
  | [] => None
  | (k', v) :: r => if list_eqb k k' then Some v else dict_get k r
  end.

Definition dict_values (d : list (pystr * pystr)) : list pystr := map snd d.

Definition str_in (s : pystr) (l : list pystr) : bool := existsb (list_eqb s) l.

(** [a or b] on optional strings: [None] and the empty string are falsy. *)
Definition py_or (a b : option pystr) : option pystr :=
  match a with
  | Some (c :: s) => Some (c :: s)
  | _ => b
  end.

Definition text_lines (ls : list pystr) : pystr :=
  flat_map (fun l => l ++ [LF]) ls.

Definition listing_head (requested_path : pystr) : pystr :=
  [LF] ++ text_lines
    [ ulit "<!DOCTYPE html>";
      ulit "<html>";
      ulit "<head>";
      ulit "    <title>Directory Listing for " ++ requested_path ++ ulit "</title>";
      ulit "    <style>";
      ulit "        body { font-family: monospace; }";
      ulit "        a { text-decoration: none; }";
      ulit "        pre { margin: 0; }";
      ulit "    </style>";
      ulit "</head>";
      ulit "<body>";
      ulit "    <h1>Directory listing for " ++ requested_path ++ ulit "</h1>";
      ulit "    <hr>";
      ulit "    <pre>" ].

Definition listing_tail : pystr :=
  [LF] ++ text_lines
    [ ulit "    </pre>"; ulit "    <hr>"; ulit "</body>"; ulit "</html>" ].

(** The anchor line [<a href="link">label</a>]. *)
Definition anchor (link label : pystr) : pystr :=
  ulit "<a href=" ++ [QUOTE] ++ link ++ [QUOTE] ++ ulit ">" ++ label
  ++ ulit "</a>" ++ [LF].

(** One iteration of the loop over the directory's items. *)
Definition listing_item (w : World) (path requested_path item : pystr)
  : result pystr :=
  encoded_item <- quote item ;;
  let full_path := path_join path item in
  let link := replace1 BACKSLASH SLASH (path_join requested_path encoded_item) in
  if isdir w full_path
  then Ok (anchor (link ++ [SLASH]) (item ++ [SLASH]))
  else Ok (anchor link item).

Fixpoint listing_loop (w : World) (path requested_path : pystr)
  (items : list pystr) (html : pystr) : result pystr :=
  match items with
  | [] => Ok html
  | item :: rest =>
      line <- listing_item w path requested_path item ;;
      listing_loop w path requested_path rest (html ++ line)
  end.

(** The text of the listing, before it is encoded. *)
Definition generate_dir_listing_html (w : World) (path requested_path : pystr)
  : result pystr :=
  names <- listdir w path ;;
  let items := sorted names in
  let html := listing_head requested_path in
  let html :=
    if negb (list_eqb requested_path [SLASH])
    then html ++ anchor (normpath (path_join requested_path [DOT; DOT]))
                        (ulit "../")
    else html in
  html <- listing_loop w path requested_path items html ;;
  Ok (html ++ listing_tail).

Definition generate_dir_listing (w : World) (path requested_path : pystr)
  : result bytes :=
  html <- generate_dir_listing_html w path requested_path ;;
  encode_utf8 html.

Definition CRLF : pystr := [CR; LF].
Definition CRLF_b : bytes := [x0d; x0a].
Definition CRLFCRLF_b : bytes := [x0d; x0a; x0d; x0a].

Definition date_header (w : World) : pystr :=
  ulit "Date: " ++ strftime_http (utcnow w).

(** The header lines [send_response] builds. *)
Definition response_headers (w : World) (status_code : Z)
  (status_text content_type : pystr) (body : bytes) : list pystr :=
  [ ulit "HTTP/1.1 " ++ str_of_Z status_code ++ ulit " " ++ status_text;
    date_header w;
    ulit "Content-Type: " ++ content_type;
    ulit "Content-Length: " ++ str_of_N (N.of_nat (List.length body));
    ulit "Connection: close" ].

(** What a call leaves on the socket: the payload of its one [sendall], or
    nothing. *)
Definition sent := option bytes.

Definition send_response (w : World) (status_code : Z)
  (status_text content_type : pystr) (body : bytes) : result sent :=
  head <- encode_utf8
            (join CRLF (response_headers w status_code status_text content_type body)) ;;
  Ok (Some (head ++ CRLFCRLF_b ++ body)).

Definition default_404_msg : pystr :=
  ulit "The requested file or resource was not found.".

Definition send_404 (w : World) (msg : pystr) : result sent :=
  html_body <- encode_utf8
                 (ulit "<html><body><h1>404 Not Found</h1><p>" ++ msg
                  ++ ulit "</p></body></html>") ;;
  send_response w 404 (ulit "Not Found") (ulit "text/html; charset=utf-8") html_body.

(** The header lines of the redirect. *)
Definition redirect_headers (w : World) (redirect_url : pystr) : list pystr :=
  [ ulit "HTTP/1.1 301 Moved Permanently";
    ulit "Location: " ++ redirect_url;
    date_header w;
    ulit "Content-Length: 0";
    ulit "Connection: close" ].

(** The [sendall] of the redirect branch of [handle_request]. *)
Definition send_redirect (w : World) (redirect_url : pystr) : result sent :=
  head <- encode_utf8 (join CRLF (redirect_headers w redirect_url)) ;;
  Ok (Some (head ++ CRLFCRLF_b)).

(** [client_socket.recv(bufsize)] on the octets the peer has delivered. *)
Definition recv (bufsize : nat) (incoming : bytes) : bytes :=
  firstn bufsize incoming.

(** [client_socket.recv(4096).decode('utf-8', 'ignore')] *)
Definition decode_request (incoming : bytes) : result pystr :=
  decode_utf8 Ignore (recv 4096 incoming).

(** The [try] block that takes the request line apart. *)
Definition parse_request_line (request : pystr) : result (pystr * pystr) :=
  let first_line := strip (hd [] (split [LF] request)) in
  match split_ws first_line with
  | [method; url_path; _] => Ok (method, unquote url_path)
  | _ => Raise ValueError
  end.

Definition forbidden_body : bytes :=
  blit "403 Forbidden: Directory traversal attempt.".

(** The content type chosen for a file, [None] when the request is answered
    with 404. *)
Definition classify (w : World) (local_path : pystr) : option pystr :=
  let ext := lower w (snd (splitext local_path)) in
  match py_or (dict_get ext SUPPORTED_MIMES) (guess_type w local_path) with
  | None => None
  | Some mime_type =>
      if negb (str_in mime_type (dict_values SUPPORTED_MIMES))
      then None else Some mime_type
  end.

(** The end of [handle_request], for a path that is not a directory. *)
Definition serve_file (w : World) (local_path : pystr) : result sent :=
  match classify w local_path with
  | None => send_404 w (ulit "Unsupported file type or extension.")
  | Some mime_type =>
      match read_file w local_path with
      | Ok body => send_response w 200 (ulit "OK") mime_type body
      | Raise _ => send_404 w (ulit "File could not be opened/read.")
      end
  end.

(** [handle_request].  [found] is the value of [local_path] after the
    existence test: the index file or the path itself when it exists, the
    directory for a directory request without index file, and [None] where
    the code sends the 404 and returns. *)
Definition handle_request (w : World) (doc_root : pystr) (incoming : bytes)
  : result sent :=
  request <- decode_request incoming ;;
  if is_empty request then Ok None else
  match parse_request_line request with
  | Raise _ => Ok None
  | Ok (method, url_path) =>
      if negb (list_eqb method (ulit "GET")) then
        send_response w 501 (ulit "Not Implemented") (ulit "text/plain")
          (blit "501 Not Implemented")
      else if contains [DOT; DOT] url_path then
        send_response w 403 (ulit "Forbidden") (ulit "text/plain") forbidden_body
      else
        let is_directory_request := endswith [SLASH] url_path in
        let dir_path := path_join doc_root (lstrip1 SLASH url_path) in
        let local_path :=
          if is_directory_request
          then path_join3 doc_root (lstrip1 SLASH url_path) (ulit "index.html")
          else dir_path in
        let found :=
          if path_exists w local_path then Some local_path
          else if is_directory_request && isdir w dir_path then Some dir_path
          else None in
        match found with
        | None => send_404 w default_404_msg
        | Some local_path =>
            if isdir w local_path then
              if negb (endswith [SLASH] url_path) then
                send_redirect w (url_path ++ [SLASH])
              else
                body <- generate_dir_listing w local_path url_path ;;
                send_response w 200 (ulit "OK")
                  (ulit "text/html; charset=utf-8") body
            else serve_file w local_path
        end
  end.

(** One turn of the accept loop: what was sent, whether the connection was
    closed, whether the loop goes on. *)
Record turn := { turn_sent : sent; turn_closed : bool; turn_continues : bool }.

Definition serve_connection (w : World) (doc_root : pystr) (incoming : bytes)
  : turn :=
  match handle_request w doc_root incoming with
  | Ok s => {| turn_sent := s; turn_closed := true; turn_continues := true |}
  | Raise _ =>
      {| turn_sent := None; turn_closed := true; turn_continues := true |}
  end.

End Server.

(** ** client.py *)

Module Client.

Definition CRLF : pystr := [CR; LF].
Definition CRLFCRLF : pystr := [CR; LF; CR; LF].
Definition CRLFCRLF_b : bytes := [x0d; x0a; x0d; x0a].

(** The [try] block of [http_get] that takes the received octets apart. *)
Definition parse_response (response_data : bytes)
  : result (list pystr * bytes) :=
  let header_end_index := find CRLFCRLF_b response_data in
  if (header_end_index =? -1)%Z then
    text <- decode_latin1 response_data ;;
    let header_part := hd [] (split CRLFCRLF text) in
    Ok (split CRLF header_part, [])
  else
    header_part <- decode_latin1 (slice_to response_data header_end_index) ;;
    let body_part := slice_from response_data (header_end_index + 4) in
    Ok (split CRLF header_part, body_part).

(** [http_get] once the peer has closed: [None] stands for the pair
    [(None, None)]. *)
Definition http_get_received (response_data : bytes)
  : option (list pystr * bytes) :=
  if is_empty response_data then None
  else match parse_response response_data with
       | Ok r => Some r
       | Raise _ => None
       end.

Fixpoint get_header_loop (w : World) (headers : list pystr) (key : pystr)
  : option pystr :=
  match headers with
  | [] => None
  | header :: rest =>
      if contains [COLON] header then
        match split1 [COLON] header with
        | [h_name; h_value] =>
            if list_eqb (lower w (strip h_name)) key
            then Some (strip h_value)
            else get_header_loop w rest key
        | _ => get_header_loop w rest key
        end
      else get_header_loop w rest key
  end.

Definition get_header_value (w : World) (headers : list pystr) (key : pystr)
  : option pystr :=
  get_header_loop w headers (lower w key).

(** [int(status_line.split()[1])] in [main]. *)
Definition status_code_of (headers : list pystr) : result Z :=
  match split_ws (hd [] headers) with
  | _ :: code :: _ => int_of_str code
  | _ => Raise IndexError
  end.

End Client.

(** ** Notions the properties are stated with *)

(** The path has a [..] segment: one of its [/]-separated components is
    exactly [..]. *)
Definition has_dotdot_segment (p : pystr) : bool :=
  existsb (list_eqb [DOT; DOT]) (split [SLASH] p).




(** Text that can sit in a header line and come back unchanged: ASCII
    without CR or LF. *)
Definition header_safe (s : pystr) : bool :=
  forallb (fun c => (c <? 0x80) && negb (c =? CR) && negb (c =? LF)) s.

(** No double CRLF anywhere in the buffer. *)
Definition no_delimiter (data : bytes) : Prop :=
  forall p q, data <> p ++ Client.CRLFCRLF_b ++ q.

(** The words of the request line as the handler sees them. *)
Definition request_tokens (incoming : bytes) : list pystr :=
  match Server.decode_request incoming with
  | Ok request => split_ws (strip (hd [] (split [LF] request)))
  | Raise _ => []
  end.

(** The octets of an ASCII text. *)
Definition ascii_bytes (s : pystr) : bytes := map byte_of_N s.

(** The octets [send_response] puts on the wire when status text and
    content type are ASCII. *)
Definition response_bytes (w : World) (status_code : Z)
  (status_text content_type : pystr) (body : bytes) : bytes :=
  ascii_bytes
    (join Server.CRLF
       (Server.response_headers w status_code status_text content_type body))
  ++ Server.CRLFCRLF_b ++ body.

Definition forbidden_response (w : World) : bytes :=
  response_bytes w 403 (ulit "Forbidden") (ulit "text/plain")
    Server.forbidden_body.

Definition not_found_response (w : World) (msg : pystr) : bytes :=
  response_bytes w 404 (ulit "Not Found") (ulit "text/html; charset=utf-8")
    (ascii_bytes (ulit "<html><body><h1>404 Not Found</h1><p>" ++ msg
                  ++ ulit "</p></body></html>")).


(** The listing line of one entry, following the description of the
    listing: the link is the requested path joined with the percent-encoded
    name, every backslash of it turned into a slash; a directory gets a
    slash after link and label. *)
Definition percent_encoded (name : pystr) : pystr :=
  match quote name with Ok q => q | Raise _ => [] end.

Definition entry_line (w : World) (path requested_path name : pystr) : pystr :=
  let href :=
    replace1 BACKSLASH SLASH (path_join requested_path (percent_encoded name)) in
  if isdir w (path_join path name)
  then Server.anchor (href ++ [SLASH]) (name ++ [SLASH])
  else Server.anchor href name.


(** The parent link of a listing: one line, or none for the root. *)
Definition parent_lines (requested_path : pystr) : list pystr :=
  if list_eqb requested_path [SLASH] then []
  else [Server.anchor (normpath (path_join requested_path [DOT; DOT]))
          (ulit "../")].

Definition str_le (a b : pystr) : Prop := str_leb a b = true.

(** ** Sample environments *)

Definition sample_time : datetime :=
  {| year := 2024; month := Mar; day := 5; hour := 9; minute := 30;
     second := 7; weekday := Tue |}.

(** The part of the interpreter's built-in extension table used below. *)
Definition builtin_types_map : list (pystr * pystr) :=
  [ (ulit ".htm", ulit "text/html");
    (ulit ".html", ulit "text/html");
    (ulit ".png", ulit "image/png");
    (ulit ".pdf", ulit "application/pdf");
    (ulit ".txt", ulit "text/plain");
    (ulit ".css", ulit "text/css") ].

Definition ascii_lower_only (c : N) : pystr := [c].

Definition sample_guess (p : pystr) : option pystr :=
  Server.dict_get (lower_with ascii_lower_only (snd (splitext p)))
    builtin_types_map.

(** A document root [www] holding [index.html], [page.htm], [notes..txt],
    a directory [sub] with two files and a directory, and a directory whose
    name has a backslash in it. *)
Definition sample_fs (p : pystr) : option node :=
  if list_eqb p (ulit "www/") then
    Some (DirNode [ulit "sub"; ulit "page.htm"; ulit "index.html"; ulit "notes..txt"])
  else if list_eqb p (ulit "www/index.html") then
    Some (FileNode (Some (blit "<html>hi</html>")))
  else if list_eqb p (ulit "www/page.htm") then
    Some (FileNode (Some (blit "<p>old</p>")))
  else if list_eqb p (ulit "www/notes..txt") then
    Some (FileNode (Some (blit "notes")))
  else if list_eqb p (ulit "www/sub") || list_eqb p (ulit "www/sub/") then
    Some (DirNode [ulit "b.png"; ulit "Z dir"; ulit "a.pdf"])
  else if list_eqb p (ulit "www/sub/Z dir") then
    Some (DirNode [])
  else if list_eqb p (ulit "www/sub/a.pdf") then
    Some (FileNode (Some (blit "%PDF")))
  else if list_eqb p (ulit "www/sub/b.png") then
    Some (FileNode None)
  else if list_eqb p (ulit "www/a\b/") then
    Some (DirNode [ulit "x.png"])
  else if list_eqb p (ulit "www/a\b/x.png") then
    Some (FileNode (Some (blit "PNG")))
  else None.

Definition sample_world : World :=
  {| fs := sample_fs; guess_type := sample_guess; utcnow := sample_time;
     lower_cp := ascii_lower_only |}.

Definition crlf : string := String (ascii_of_nat 13) (String (ascii_of_nat 10) EmptyString).
Definition http_request (line : string) : bytes :=
  blit (line ++ crlf ++ "Host: localhost:8080" ++ crlf ++ crlf)%string.

(** ** Predicates of the proofs *)

Definition event_ok (e : utf8_event) : Prop :=
  match e with
  | Cp c => scalar c = true
  | Bad => True
  end.

(** A string whose code points UTF-8 can encode. *)
Definition encodable (s : pystr) : Prop := Forall (fun c => scalar c = true) s.

(** An ASCII character other than CR and LF. *)
Definition plain (c : N) : Prop := c < 0x80 /\ c <> CR /\ c <> LF.

Definition is_digit (c : N) : Prop := 48 <= c <= 57.

Definition is_numeral (c : N) : Prop := c = 45 \/ is_digit c.

(** The content type after the allow-list filter, for an extension that is
    not a key of the table. *)
Definition guessed_type (w : World) (p : pystr) : option pystr :=
  match guess_type w p with
  | Some m =>
      if Server.str_in m (Server.dict_values Server.SUPPORTED_MIMES)
      then Some m else None
  | None => None
  end.


(** A head line as octets: not empty, no CR. *)
Definition line_ok (l : bytes) : Prop := l <> [] /\ Forall (fun b => b <> x0d) l.

(** ** A second sample environment *)

(** The sample tree with a text file [readme.txt] added. *)
Definition sample_world_txt : World :=
  {| fs := fun p =>
             if list_eqb p (ulit "www/readme.txt")
             then Some (FileNode (Some (blit "read me")))
             else sample_fs p;
     guess_type := sample_guess; utcnow := sample_time;
     lower_cp := ascii_lower_only |}.

(** ** Notions of the further properties *)

(** The response starts with one of the five status lines the server
    knows. *)
Definition known_status_line (bs : bytes) : Prop :=
  startswith (blit "HTTP/1.1 200 OK" ++ Server.CRLF_b) bs = true \/
  startswith (blit "HTTP/1.1 301 Moved Permanently" ++ Server.CRLF_b) bs = true \/
  startswith (blit "HTTP/1.1 403 Forbidden" ++ Server.CRLF_b) bs = true \/
  startswith (blit "HTTP/1.1 404 Not Found" ++ Server.CRLF_b) bs = true \/
  startswith (blit "HTTP/1.1 501 Not Implemented" ++ Server.CRLF_b) bs = true.


(** The text of a listing with the given entry names. *)
Definition listing_text (w : World) (path requested_path : pystr)
  (names : list pystr) : pystr :=
  Server.listing_head requested_path
  ++ List.concat (parent_lines requested_path)
  ++ flat_map (entry_line w path requested_path) (sorted names)
  ++ Server.listing_tail.


(** The sample tree with the entries of [sub] reported in another order. *)
Definition sample_world_reordered : World :=
  {| fs := fun p =>
             if list_eqb p (ulit "www/sub/")
             then Some (DirNode (rev [ulit "b.png"; ulit "Z dir"; ulit "a.pdf"]))
             else sample_fs p;
     guess_type := sample_guess; utcnow := sample_time;
     lower_cp := ascii_lower_only |}.

(** ** client.py: the driver *)

Module Driver.

(** What the program does to the outside: lines printed, directories
    created, files written. *)
Inductive event :=
| Print (text : pystr)
| Makedirs (directory : pystr)
| WriteFile (path : pystr) (content : bytes).

(** A computation with effects: the events so far and its result. *)
Definition io (A : Type) : Type := list event * result A.

Definition ret {A} (a : A) : io A := ([], Ok a).
Definition raise {A} (e : exn) : io A := ([], Raise e).
Definition emit (e : event) : io unit := ([e], Ok tt).

Definition io_bind {A B} (m : io A) (k : A -> io B) : io B :=
  match snd m with
  | Ok a => (fst m ++ fst (k a), snd (k a))
  | Raise e => (fst m, Raise e)
  end.

Notation "x <-- m ;;; k" := (io_bind m (fun x => k))
  (at level 61, m at next level, right associativity).
Notation "m ;;; k" := (io_bind m (fun _ => k))
  (at level 61, right associativity).

(** What the client's environment decides: the path component that
    [urllib.parse.urlparse] finds in a string, whether [os.makedirs]
    succeeds, and the error message of a failing write ([None] when the
    write succeeds). *)
Record Env := {
  urlparse_path : pystr -> pystr;
  makedirs_ok : pystr -> bool;
  write_error : pystr -> option pystr
}.

(** What the connection gives: a socket error (a timeout is one) with its
    message, or the chunks that the calls of [recv] return, the peer having
    closed after the last one. *)
Inductive exchange :=
| SocketError (msg : pystr)
| Received (chunks : list bytes).

(** The request of [http_get]. *)
Definition request_text (host : pystr) (port : Z) (path : pystr) : pystr :=
  ulit "GET " ++ path ++ ulit " HTTP/1.1" ++ [CR; LF]
  ++ ulit "Host: " ++ host ++ ulit ":" ++ str_of_Z port ++ [CR; LF]
  ++ ulit "Connection: close" ++ [CR; LF; CR; LF].

(** The receive loop: chunks are appended until an empty one. *)
Fixpoint recv_loop (chunks : list bytes) : bytes :=
  match chunks with
  | [] => []
  | chunk :: rest => if is_empty chunk then [] else chunk ++ recv_loop rest
  end.

(** [http_get]; [None] is the pair [(None, None)].  The text of an
    exception raised while the response is taken apart is not modelled:
    the Latin-1 decoder raises none. *)
Definition http_get (net : bytes -> exchange) (host : pystr) (port : Z)
  (path : pystr) : io (option (list pystr * bytes)) :=
  match encode_utf8 (request_text host port path) with
  | Raise e => raise e
  | Ok request =>
      match net request with
      | SocketError msg =>
          emit (Print (ulit "Socket error: " ++ msg)) ;;; ret None
      | Received chunks =>
          let response_data := recv_loop chunks in
          if is_empty response_data then
            emit (Print (ulit "Error: Empty response received.")) ;;; ret None
          else
            match Client.parse_response response_data with
            | Ok r => ret (Some r)
            | Raise _ =>
                emit (Print (ulit "Error parsing response: ")) ;;; ret None
            end
      end
  end.

(** [os.path.basename(p)] *)
Definition basename (p : pystr) : pystr := slice_from p (rfind1 SLASH p + 1).

Definition save_name (env : Env) (path : pystr) : pystr :=
  let file_name := basename (urlparse_path env path) in
  if is_empty file_name
  then (if list_eqb path [SLASH] then ulit "index.html"
        else ulit "downloaded_file")
  else file_name.

(** [save_file] *)
Definition save_file (env : Env) (directory path : pystr) (content : bytes)
  : io unit :=
  let file_name := save_name env path in
  let save_path := path_join directory file_name in
  if negb (makedirs_ok env directory) then raise OSError else
  emit (Makedirs directory) ;;;
  match write_error env save_path with
  | None =>
      emit (WriteFile save_path content) ;;;
      emit (Print (ulit "Successfully saved file to: " ++ save_path))
  | Some e => emit (Print (ulit "Error saving file: " ++ e))
  end.

(** [body.decode('utf-8')], and [body.decode('latin-1', 'ignore')] when
    that fails. *)
Definition decode_body (body : bytes) : pystr :=
  match decode_utf8 Strict body with
  | Ok s => s
  | Raise _ => map Byte.to_N body
  end.

(** [main] once the four arguments are read, the port being a number.
    [int] is [int_of_str], exact on the decimal numerals that status lines
    normally carry. *)
Definition main (env : Env) (w : World) (net : bytes -> exchange)
  (server_host : pystr) (server_port : Z) (url_path save_directory : pystr)
  : io unit :=
  let url_path :=
    if negb (startswith [SLASH] url_path) then [SLASH] ++ url_path
    else url_path in
  emit (Print (ulit "Requesting: http://" ++ server_host ++ ulit ":"
               ++ str_of_Z server_port ++ url_path)) ;;;
  r <-- http_get net server_host server_port url_path ;;;
  match r with
  | None => emit (Print (ulit "Failed to get response."))
  | Some ([], _) => emit (Print (ulit "Failed to get response."))
  | Some (status_line :: rest, body) =>
      let headers := status_line :: rest in
      match split_ws status_line with
      | [] | [_] =>
          emit (Print (ulit "Error: Malformed status line: " ++ status_line))
      | _ :: code :: after =>
          match int_of_str code with
          | Raise e => raise e
          | Ok status_code =>
              if negb (status_code =? 200)%Z then
                match after with
                | [] => raise IndexError
                | reason :: _ =>
                    emit (Print (ulit "Server responded with status code: "
                                 ++ str_of_Z status_code ++ ulit " " ++ reason)) ;;;
                    if negb (is_empty body) then
                      emit (Print ([LF] ++ ulit "--- Response Body ---")) ;;;
                      emit (Print (map Byte.to_N body))
                    else ret tt
                end
              else
                content_type <--
                  match Client.get_header_value w headers (ulit "Content-Type") with
                  | Some ct => ret ct
                  | None =>
                      emit (Print (ulit "Warning: Content-Type header missing or malformed. Treating as HTML.")) ;;;
                      ret (ulit "text/html")
                  end ;;;
                if contains (ulit "text/html") content_type then
                  emit (Print ([LF] ++ ulit "--- HTML Response Body ---")) ;;;
                  emit (Print (decode_body body))
                else if contains (ulit "image/png") content_type
                        || contains (ulit "application/pdf") content_type then
                  emit (Print (ulit "File type: " ++ content_type
                               ++ ulit ". Saving to directory: " ++ save_directory)) ;;;
                  save_file env save_directory url_path body
                else
                  emit (Print (ulit "Unknown Content-Type: " ++ content_type
                               ++ ulit ". Printing body as text.")) ;;;
                  emit (Print ([LF] ++ ulit "--- Unknown Response Body ---")) ;;;
                  emit (Print (decode_body body))
          end
      end
  end.

End Driver.

(** The request line fits in the first [recv] of the server and is one
    word of plain ASCII. *)
Definition wire_path (path : pystr) : Prop :=
  path <> [] /\
  Forall (fun c => c < 0x80 /\ isspace c = false) path /\
  (List.length path <= 4000)%nat.

(** Sample environment of the client: the path component is the string up
    to the first [?] or [#]; everything can be created and written. *)
Definition sample_env : Driver.Env :=
  {| Driver.urlparse_path :=
       fun s => hd [] (split [35] (hd [] (split [63] s)));
     Driver.makedirs_ok := fun _ => true;
     Driver.write_error := fun _ => None |}.

(** A peer that is the server: it answers a request with the response of
    the handler, delivered in one piece. *)
Definition server_peer (w : World) (doc_root : pystr) (request : bytes)
  : Driver.exchange :=
  match Server.handle_request w doc_root request with
  | Ok (Some bs) => Driver.Received [bs]
  | _ => Driver.Received []
  end.

(** * Properties *)

(** ** Sequences *)

Section SequenceFacts.
Context {A : Type} `{Eqb A}.

Lemma elt_eqb_refl (x : A) : elt_eqb x x = true.
Proof. now apply elt_eqb_eq. Qed.

Lemma elt_eqb_neq (x y : A) : x <> y -> elt_eqb x y = false.
Proof.
  intros Hn. destruct (elt_eqb x y) eqn:E; [|reflexivity].
  apply elt_eqb_eq in E. contradiction.
Qed.

Lemma startswith_app (p r : list A) : startswith p (p ++ r) = true.
Proof.
  induction p as [|x p IH]; simpl; [reflexivity|].
  now rewrite elt_eqb_refl.
Qed.

Lemma startswith_inv (p s : list A) :
  startswith p s = true -> s = p ++ skipn (List.length p) s.
Proof.
  revert s. induction p as [|x p IH]; intros [|y s]; simpl; try easy.
  intros E. apply andb_prop in E as [E1 E2].
  apply elt_eqb_eq in E1. subst y. f_equal. now apply IH.
Qed.

Lemma startswith_iff (p s : list A) :
  startswith p s = true <-> exists r, s = p ++ r.
Proof.
  split.
  - intros E. eexists. now apply startswith_inv.
  - intros [r ->]. apply startswith_app.
Qed.

Lemma startswith_head_neq (a x : A) (p s : list A) :
  x <> a -> startswith (a :: p) (x :: s) = false.
Proof.
  intros Hn. simpl. rewrite elt_eqb_neq; [reflexivity|congruence].
Qed.

Lemma contains_unfold (p s : list A) :
  contains p s
  = startswith p s || match s with [] => false | _ :: t => contains p t end.
Proof. destruct s; reflexivity. Qed.

(** [p in s] exactly when [s] has [p] as a contiguous part. *)
Lemma contains_iff (p s : list A) :
  contains p s = true <-> exists a b, s = a ++ p ++ b.
Proof.
  split.
  - induction s as [|x s IH]; simpl; intros E.
    + rewrite orb_false_r in E. apply startswith_iff in E as [r E].
      exists [], r. exact E.
    + apply orb_prop in E as [E|E].
      * apply startswith_iff in E as [r E]. exists [], r. exact E.
      * destruct (IH E) as (a & b & ->). now exists (x :: a), b.
  - intros (a & b & ->). induction a as [|x a IH]; simpl.
    + rewrite contains_unfold, startswith_app. reflexivity.
    + rewrite IH. apply orb_true_r.
Qed.

Lemma contains_false_startswith (p s : list A) :
  contains p s = false -> startswith p s = false.
Proof.
  destruct s; simpl; intros E; now apply orb_false_elim in E.
Qed.

Lemma contains_false_tail (p : list A) x s :
  contains p (x :: s) = false -> contains p s = false.
Proof. simpl. intros E. now apply orb_false_elim in E. Qed.

(** *** [find] *)

Lemma find_from_absent (p s : list A) (i : Z) :
  contains p s = false -> find_from p s i = (-1)%Z.
Proof.
  revert i. induction s as [|x s IH]; intros i E.
  - simpl in *. rewrite orb_false_r in E. now rewrite E.
  - simpl. rewrite (contains_false_startswith _ _ E).
    apply IH. exact (contains_false_tail _ _ _ E).
Qed.


(** Scanning over elements that cannot start the pattern. *)
Lemma find_from_skip (a : A) (p l r : list A) (i : Z) :
  Forall (fun x => x <> a) l ->
  find_from (a :: p) (l ++ r) i
  = find_from (a :: p) r (i + Z.of_nat (List.length l))%Z.
Proof.
  intros Hl. revert i. induction Hl as [|x l Hx Hl IH]; intros i.
  - simpl app. simpl List.length. now rewrite Z.add_0_r.
  - change ((x :: l) ++ r) with (x :: (l ++ r)).
    cbn [find_from]. rewrite startswith_head_neq by exact Hx.
    rewrite IH. f_equal. cbn [List.length]. lia.
Qed.

(** *** [split] and [join] *)

Lemma split_go_nonempty sep k cur (s : list A) : split_go sep k cur s <> [].
Proof.
  revert k cur. induction s as [|x s IH]; intros k cur; simpl; [easy|].
  destruct k; [|apply IH]. destruct (startswith sep (x :: s)); [easy|apply IH].
Qed.

Lemma join_cons sep (p : list A) rest :
  rest <> [] -> join sep (p :: rest) = p ++ sep ++ join sep rest.
Proof. destruct rest; [easy|reflexivity]. Qed.

(** Joining the pieces with the separator gives the text back. *)
Lemma join_split_go sep k cur (s : list A) :
  sep <> [] ->
  join sep (split_go sep k cur s) = rev cur ++ skipn k s.
Proof.
  intros Hsep. revert k cur. induction s as [|x s IH]; intros k cur.
  - simpl. now rewrite skipn_nil, app_nil_r.
  - destruct k as [|k].
    + cbn [split_go skipn]. destruct (startswith sep (x :: s)) eqn:E.
      * rewrite join_cons by apply split_go_nonempty.
        rewrite IH. f_equal.
        apply startswith_inv in E.
        destruct sep as [|y sep]; [easy|]. simpl in E |- *.
        symmetry. exact E.
      * rewrite IH. simpl. now rewrite <- app_assoc.
    + cbn [split_go skipn]. apply IH.
Qed.

Lemma join_split sep (s : list A) : sep <> [] -> join sep (split sep s) = s.
Proof. intros Hsep. unfold split. now rewrite join_split_go. Qed.

(** Every piece of a split is a contiguous part of the text. *)
Lemma split_go_infix sep k cur (s x : list A) :
  In x (split_go sep k cur s) ->
  exists a b, rev cur ++ skipn k s = a ++ x ++ b.
Proof.
  revert k cur. induction s as [|y s IH]; intros k cur Hin.
  - simpl in Hin. destruct Hin as [<-|[]]. exists [], [].
    rewrite skipn_nil. simpl. reflexivity.
  - destruct k as [|k]; cbn [split_go skipn] in *.
    + destruct (startswith sep (y :: s)) eqn:E.
      * destruct Hin as [<-|Hin].
        -- exists [], (y :: s). reflexivity.
        -- apply IH in Hin as (a & b & E'). simpl in E'.
           exists (rev cur ++ y :: firstn (Nat.pred (List.length sep)) s ++ a), b.
           rewrite <- (firstn_skipn (Nat.pred (List.length sep)) s) at 1.
           rewrite E'. rewrite <- !app_assoc. simpl. now rewrite <- !app_assoc.
      * apply IH in Hin as (a & b & E'). exists a, b. rewrite <- E'.
        simpl. now rewrite <- app_assoc.
    + now apply IH.
Qed.

Lemma split_infix sep (s x : list A) :
  In x (split sep s) -> exists a b, s = a ++ x ++ b.
Proof. intros Hin. apply split_go_infix in Hin. exact Hin. Qed.

(** Passing over the rest of a separator occurrence. *)
Lemma split_go_skip sep (q r : list A) :
  split_go sep (List.length q) [] (q ++ r) = split_go sep O [] r.
Proof.
  induction q as [|x q IH]; [reflexivity|]. simpl. exact IH.
Qed.

(** A piece free of the separator's first element is cut off whole. *)
Lemma split_go_piece (a : A) sep' cur (l r : list A) :
  Forall (fun x => x <> a) l ->
  split_go (a :: sep') O cur (l ++ (a :: sep') ++ r)
  = (rev cur ++ l) :: split_go (a :: sep') O [] r.
Proof.
  intros Hl. revert cur. induction Hl as [|x l Hx Hl IH]; intros cur.
  - cbn [app]. cbn [split_go]. 
    change (a :: sep' ++ r) with ((a :: sep') ++ r).
    rewrite startswith_app. rewrite app_nil_r. f_equal.
    cbn [List.length Nat.pred]. apply split_go_skip.
  - change ((x :: l) ++ (a :: sep') ++ r) with (x :: (l ++ (a :: sep') ++ r)).
    cbn [split_go]. rewrite startswith_head_neq by exact Hx.
    rewrite IH. simpl. now rewrite <- app_assoc.
Qed.

Lemma split_go_last (a : A) sep' cur (l : list A) :
  Forall (fun x => x <> a) l ->
  split_go (a :: sep') O cur l = [rev cur ++ l].
Proof.
  intros Hl. revert cur. induction Hl as [|x l Hx Hl IH]; intros cur.
  - simpl. now rewrite app_nil_r.
  - cbn [split_go]. rewrite startswith_head_neq by exact Hx.
    rewrite IH. simpl. now rewrite <- app_assoc.
Qed.

(** Splitting what was joined gives the pieces back, when no piece holds
    the first element of the separator. *)
Lemma split_join (a : A) sep' (ls : list (list A)) :
  ls <> [] ->
  Forall (Forall (fun x => x <> a)) ls ->
  split (a :: sep') (join (a :: sep') ls) = ls.
Proof.
  intros Hne Hall. unfold split.
  induction ls as [|l ls IH]; [easy|].
  inversion Hall as [|? ? Hl Hls]; subst.
  destruct ls as [|l' ls].
  - simpl. now rewrite split_go_last.
  - rewrite join_cons by easy. rewrite split_go_piece by exact Hl.
    simpl rev. simpl app at 1. f_equal. apply IH; [easy|exact Hls].
Qed.

(** Without an occurrence of the separator there is one piece. *)
Lemma split_go_absent sep cur (s : list A) :
  contains sep s = false -> split_go sep O cur s = [rev cur ++ s].
Proof.
  revert cur. induction s as [|x s IH]; intros cur E.
  - simpl. now rewrite app_nil_r.
  - cbn [split_go]. rewrite (contains_false_startswith _ _ E).
    rewrite IH by exact (contains_false_tail _ _ _ E).
    simpl. now rewrite <- app_assoc.
Qed.

Lemma list_eqb_eq (a b : list A) : list_eqb a b = true <-> a = b.
Proof.
  unfold list_eqb. split.
  - intros E. apply andb_prop in E as [E1 E2].
    apply Nat.eqb_eq in E1. apply startswith_inv in E2.
    rewrite E2. rewrite E1, skipn_all. now rewrite app_nil_r.
  - intros ->. rewrite Nat.eqb_refl. simpl.
    rewrite <- (app_nil_r b) at 2. apply startswith_app.
Qed.

Lemma list_eqb_refl (a : list A) : list_eqb a a = true.
Proof. now apply list_eqb_eq. Qed.

Lemma list_eqb_neq (a b : list A) : a <> b -> list_eqb a b = false.
Proof.
  intros Hn. destruct (list_eqb a b) eqn:E; [|reflexivity].
  apply list_eqb_eq in E. contradiction.
Qed.

End SequenceFacts.

(** ** Octets and code points *)

Lemma to_N_lt (b : byte) : Byte.to_N b < 256.
Proof. pose proof (Byte.to_N_bounded b). lia. Qed.

Lemma byte_of_N_to_N (b : byte) : byte_of_N (Byte.to_N b) = b.
Proof. unfold byte_of_N. now rewrite Byte.of_to_N. Qed.

Lemma to_N_byte_of_N (n : N) : n < 256 -> Byte.to_N (byte_of_N n) = n.
Proof.
  intros Hn. unfold byte_of_N. destruct (Byte.of_N n) eqn:E.
  - now apply Byte.to_of_N.
  - apply Byte.of_N_None_iff in E. lia.
Qed.

Lemma to_N_inj (a b : byte) : Byte.to_N a = Byte.to_N b -> a = b.
Proof.
  intros E. rewrite <- (byte_of_N_to_N a), <- (byte_of_N_to_N b). now rewrite E.
Qed.

Lemma map_to_N_ascii_bytes (s : pystr) :
  Forall (fun c => c < 256) s -> map Byte.to_N (ascii_bytes s) = s.
Proof.
  induction 1 as [|c s Hc Hs IH]; simpl; [reflexivity|].
  now rewrite to_N_byte_of_N, IH.
Qed.

Lemma ascii_bytes_to_N (bs : bytes) : ascii_bytes (map Byte.to_N bs) = bs.
Proof.
  induction bs as [|b bs IH]; simpl; [reflexivity|].
  now rewrite byte_of_N_to_N, IH.
Qed.

Lemma ascii_bytes_app (a b : pystr) :
  ascii_bytes (a ++ b) = ascii_bytes a ++ ascii_bytes b.
Proof. apply map_app. Qed.

Lemma ascii_bytes_length (s : pystr) :
  List.length (ascii_bytes s) = List.length s.
Proof. apply length_map. Qed.

Lemma eqb_to_N (a b : byte) :
  (Byte.to_N a =? Byte.to_N b) = Byte.eqb a b.
Proof.
  destruct (Byte.eqb a b) eqn:E.
  - apply Byte.byte_dec_bl in E. subst. apply N.eqb_refl.
  - apply N.eqb_neq. intros E'. apply to_N_inj in E'. subst.
    rewrite (Byte.byte_dec_lb eq_refl) in E. discriminate.
Qed.

(** Latin-1 decoding commutes with the tests of the sequence protocol. *)
Lemma startswith_latin1 (p s : bytes) :
  startswith (map Byte.to_N p) (map Byte.to_N s) = startswith p s.
Proof.
  revert s. induction p as [|x p IH]; intros [|y s]; simpl; try reflexivity.
  now rewrite eqb_to_N, IH.
Qed.

Lemma contains_latin1 (p s : bytes) :
  contains (map Byte.to_N p) (map Byte.to_N s) = contains p s.
Proof.
  induction s as [|y s IH].
  - pose proof (startswith_latin1 p []) as E. simpl in E |- *. now rewrite E.
  - pose proof (startswith_latin1 p (y :: s)) as E. simpl in E |- *.
    now rewrite E, IH.
Qed.

(** ** The UTF-8 codec *)

Ltac bool_to_prop :=
  repeat match goal with
  | H : (_ && _) = true |- _ => apply andb_prop in H; destruct H
  | H : (_ <? _) = true |- _ => apply N.ltb_lt in H
  | H : (_ <? _) = false |- _ => apply N.ltb_ge in H
  | H : (_ <=? _) = true |- _ => apply N.leb_le in H
  | H : (_ <=? _) = false |- _ => apply N.leb_gt in H
  | H : (_ =? _) = true |- _ => apply N.eqb_eq in H
  | H : (_ =? _) = false |- _ => apply N.eqb_neq in H
  end.

Lemma scalar_intro (c : N) :
  c < 0x110000 -> (c < 0xD800 \/ 0xDFFF < c) -> scalar c = true.
Proof.
  intros H1 H2. unfold scalar, is_surrogate.
  apply andb_true_intro. split; [now apply N.ltb_lt|].
  apply negb_true_iff. apply andb_false_iff.
  destruct H2; [left; now apply N.leb_gt | right; now apply N.leb_gt].
Qed.

Lemma scalar_elim (c : N) :
  scalar c = true -> c < 0x110000 /\ (c < 0xD800 \/ 0xDFFF < c).
Proof.
  unfold scalar, is_surrogate. intros H.
  apply andb_prop in H as [H1 H2]. apply N.ltb_lt in H1.
  apply negb_true_iff in H2. apply andb_false_iff in H2.
  split; [exact H1|]. destruct H2 as [H2|H2]; apply N.leb_gt in H2; lia.
Qed.

Lemma scalar_ascii (c : N) : c < 0x80 -> scalar c = true.
Proof. intros. apply scalar_intro; lia. Qed.

Lemma cp2_scalar (b1 b2 : byte) :
  Byte.to_N b1 < 0xE0 -> is_cont b2 = true ->
  scalar ((Byte.to_N b1 - 0xC0) * 64 + low6 b2) = true.
Proof.
  unfold is_cont, low6. intros H1 H2. bool_to_prop.
  apply scalar_intro; lia.
Qed.

Lemma cp3_scalar (b1 b2 b3 : byte) :
  0xE0 <= Byte.to_N b1 -> Byte.to_N b1 < 0xF0 ->
  in_range (second_lo (Byte.to_N b1)) (second_hi (Byte.to_N b1)) b2 = true ->
  is_cont b3 = true ->
  scalar ((Byte.to_N b1 - 0xE0) * 4096 + low6 b2 * 64 + low6 b3) = true.
Proof.
  unfold is_cont, in_range, second_lo, second_hi, low6.
  intros H0 H1 H2 H3.
  destruct (Byte.to_N b1 =? 0xE0) eqn:E1;
  destruct (Byte.to_N b1 =? 0xED) eqn:E2;
  destruct (Byte.to_N b1 =? 0xF0) eqn:E3;
  destruct (Byte.to_N b1 =? 0xF4) eqn:E4;
  bool_to_prop; apply scalar_intro; lia.
Qed.

Lemma cp4_scalar (b1 b2 b3 b4 : byte) :
  0xF0 <= Byte.to_N b1 -> Byte.to_N b1 < 0xF5 ->
  in_range (second_lo (Byte.to_N b1)) (second_hi (Byte.to_N b1)) b2 = true ->
  is_cont b3 = true -> is_cont b4 = true ->
  scalar ((Byte.to_N b1 - 0xF0) * 262144 + low6 b2 * 4096
          + low6 b3 * 64 + low6 b4) = true.
Proof.
  unfold is_cont, in_range, second_lo, second_hi, low6.
  intros H0 H1 H2 H3 H4.
  destruct (Byte.to_N b1 =? 0xE0) eqn:E1;
  destruct (Byte.to_N b1 =? 0xED) eqn:E2;
  destruct (Byte.to_N b1 =? 0xF0) eqn:E3;
  destruct (Byte.to_N b1 =? 0xF4) eqn:E4;
  bool_to_prop; apply scalar_intro; lia.
Qed.

(** The decoder only ever produces scalar values. *)
Lemma utf8_scan_ok_bounded (n : nat) (bs : bytes) :
  (List.length bs <= n)%nat -> Forall event_ok (utf8_scan bs).
Proof.
  revert bs. induction n as [|n IH]; intros bs Hlen.
  - destruct bs; [constructor|simpl in Hlen; lia].
  - destruct bs as [|b1 t1]; [constructor|].
    cbn [utf8_scan]. cbv zeta.
    repeat match goal with
    | |- Forall _ [] => constructor
    | |- Forall _ (_ :: _) => constructor
    | |- Forall _ (utf8_scan _) => apply IH; simpl in *; lia
    | |- Forall _ (if ?c then _ else _) => destruct c eqn:?
    | |- Forall _ (match ?l with [] => _ | _ :: _ => _ end) => destruct l
    | |- event_ok Bad => exact I
    end.
    + apply scalar_ascii. bool_to_prop. lia.
    + apply cp2_scalar; [bool_to_prop; lia|assumption].
    + apply cp3_scalar; try assumption; bool_to_prop; lia.
    + apply cp4_scalar; try assumption; bool_to_prop; lia.
Qed.

Lemma utf8_scan_ok (bs : bytes) : Forall event_ok (utf8_scan bs).
Proof. now apply (utf8_scan_ok_bounded (List.length bs)). Qed.

Lemma handle_events_ignore (es : list utf8_event) :
  Forall event_ok es ->
  exists s, handle_events Ignore es = Ok s /\ encodable s.
Proof.
  induction 1 as [|e es He Hes IH].
  - exists []. split; [reflexivity|constructor].
  - destruct IH as (s & Es & Hs). destruct e as [c|]; simpl.
    + rewrite Es. simpl. exists (c :: s). split; [reflexivity|].
      constructor; assumption.
    + exists s. split; assumption.
Qed.

(** Decoding with [errors='ignore'] never raises, and its result can be
    encoded again. *)
Lemma decode_utf8_ignore_total (bs : bytes) :
  exists s, decode_utf8 Ignore bs = Ok s /\ encodable s.
Proof. apply handle_events_ignore, utf8_scan_ok. Qed.

Lemma replace_events_encodable (es : list utf8_event) :
  Forall event_ok es -> encodable (replace_events es).
Proof.
  induction 1 as [|e es He Hes IH]; [constructor|].
  simpl. constructor; [|exact IH].
  destruct e; [exact He|reflexivity].
Qed.



Lemma encode_utf8_app (a b : pystr) :
  encode_utf8 (a ++ b)
  = (x <- encode_utf8 a ;; y <- encode_utf8 b ;; Ok (x ++ y)).
Proof.
  induction a as [|c a IH]; simpl.
  - destruct (encode_utf8 b); reflexivity.
  - destruct (utf8_encode_cp c); simpl; [|reflexivity].
    rewrite IH. destruct (encode_utf8 a); simpl; [|reflexivity].
    destruct (encode_utf8 b); simpl; [|reflexivity].
    now rewrite app_assoc.
Qed.

Lemma encode_utf8_ascii (s : pystr) :
  Forall (fun c => c < 0x80) s -> encode_utf8 s = Ok (ascii_bytes s).
Proof.
  induction 1 as [|c s Hc Hs IH]; [reflexivity|].
  simpl. unfold utf8_encode_cp. apply N.ltb_lt in Hc. rewrite Hc.
  simpl. now rewrite IH.
Qed.

Lemma encode_utf8_encodable (s : pystr) :
  encodable s -> exists bs, encode_utf8 s = Ok bs.
Proof.
  induction 1 as [|c s Hc Hs IH]; [now exists []|].
  destruct IH as (bs & E). simpl. rewrite E.
  apply scalar_elim in Hc as [H1 H2].
  unfold utf8_encode_cp, is_surrogate.
  destruct (c <? 0x80); [simpl; eauto|].
  destruct (c <? 0x800); [simpl; eauto|].
  destruct ((0xD800 <=? c) && (c <=? 0xDFFF)) eqn:Es.
  { bool_to_prop. lia. }
  destruct (c <? 0x10000); [simpl; eauto|].
  apply N.ltb_lt in H1. rewrite H1. simpl. eauto.
Qed.

Lemma encodable_app (a b : pystr) :
  encodable (a ++ b) <-> encodable a /\ encodable b.
Proof. apply Forall_app. Qed.

Lemma encodable_ascii (s : pystr) :
  Forall (fun c => c < 0x80) s -> encodable s.
Proof.
  unfold encodable. intros Hs. eapply Forall_impl; [|exact Hs].
  intros c Hc. now apply scalar_ascii.
Qed.

(** ** Header text *)

Lemma header_safe_iff (s : pystr) : header_safe s = true <-> Forall plain s.
Proof.
  unfold header_safe. rewrite forallb_forall, Forall_forall.
  split; intros Hs c Hc; specialize (Hs c Hc).
  - apply andb_prop in Hs as [Hs H3]. apply andb_prop in Hs as [H1 H2].
    apply N.ltb_lt in H1. apply negb_true_iff, N.eqb_neq in H2.
    apply negb_true_iff, N.eqb_neq in H3. now repeat split.
  - destruct Hs as (H1 & H2 & H3).
    apply N.ltb_lt in H1. apply N.eqb_neq in H2, H3.
    now rewrite H1, H2, H3.
Qed.

Lemma plain_literal (s : string) :
  header_safe (ulit s) = true -> Forall plain (ulit s).
Proof. apply header_safe_iff. Qed.

Lemma digit_plain (c : N) : is_digit c -> plain c.
Proof. unfold is_digit, plain, CR, LF. lia. Qed.

Lemma ulit_cons (a : ascii) (s : string) :
  ulit (String a s) = Byte.to_N (byte_of_ascii a) :: ulit s.
Proof. reflexivity. Qed.

Lemma uint_digits (d : Decimal.uint) :
  Forall is_digit (ulit (NilEmpty.string_of_uint d)).
Proof.
  induction d; cbn [NilEmpty.string_of_uint]; try rewrite ulit_cons;
    constructor; try assumption; unfold is_digit; simpl; lia.
Qed.

Lemma nz_uint_digits (d : Decimal.uint) :
  Forall is_digit (ulit (NilZero.string_of_uint d)).
Proof.
  unfold NilZero.string_of_uint.
  destruct d eqn:E; try (rewrite <- E; apply uint_digits).
  repeat constructor; unfold is_digit; simpl; lia.
Qed.

Lemma nz_uint_nonempty (d : Decimal.uint) :
  ulit (NilZero.string_of_uint d) <> [].
Proof. destruct d; discriminate. Qed.

Lemma str_of_N_digits (n : N) : Forall is_digit (str_of_N n).
Proof. apply nz_uint_digits. Qed.

Lemma str_of_N_nonempty (n : N) : str_of_N n <> [].
Proof. apply nz_uint_nonempty. Qed.

Lemma numeral_plain (c : N) : is_numeral c -> plain c.
Proof. unfold is_numeral, is_digit, plain, CR, LF. lia. Qed.

Lemma str_of_Z_numeral (z : Z) : Forall is_numeral (str_of_Z z).
Proof.
  unfold str_of_Z, NilZero.string_of_int.
  destruct (Z.to_int z) as [d|d].
  - eapply Forall_impl; [|apply nz_uint_digits]. intros c Hc. now right.
  - rewrite ulit_cons. constructor; [now left|].
    eapply Forall_impl; [|apply nz_uint_digits]. intros c Hc. now right.
Qed.

Lemma str_of_Z_nonempty (z : Z) : str_of_Z z <> [].
Proof.
  unfold str_of_Z, NilZero.string_of_int.
  destruct (Z.to_int z) as [d|d]; [apply nz_uint_nonempty|discriminate].
Qed.

Lemma ulit_bytes (s : string) :
  string_of_list_byte (map byte_of_N (ulit s)) = s.
Proof.
  unfold ulit. rewrite map_map.
  rewrite (map_ext _ (fun b => b)) by apply byte_of_N_to_N.
  rewrite map_id. apply string_of_list_byte_of_string.
Qed.

Lemma to_int_wellformed (z : Z) :
  Z.to_int z <> Decimal.Pos Decimal.Nil /\ Z.to_int z <> Decimal.Neg Decimal.Nil.
Proof.
  destruct z as [|p|p]; simpl; split; try discriminate;
    intros E; injection E as E; now apply DecimalPos.Unsigned.to_uint_nonnil in E.
Qed.

(** Reading back the decimal text of an integer gives the integer. *)
Lemma int_of_str_of_Z (z : Z) : int_of_str (str_of_Z z) = Ok z.
Proof.
  unfold int_of_str.
  assert (Hc : forallb (fun c => c <? 256) (str_of_Z z) = true).
  { apply forallb_forall. intros c Hc.
    pose proof (str_of_Z_numeral z) as Hn. rewrite Forall_forall in Hn.
    specialize (Hn c Hc). apply N.ltb_lt. unfold is_numeral, is_digit in Hn. lia. }
  rewrite Hc. unfold str_of_Z. rewrite ulit_bytes.
  destruct (to_int_wellformed z) as [H1 H2].
  rewrite NilZero.isi by assumption. now rewrite DecimalZ.of_to.
Qed.

(** *** The date line *)

Ltac plain_concrete := apply header_safe_iff; reflexivity.

Lemma pad2_plain (n : N) : Forall plain (pad2 n).
Proof.
  unfold pad2. destruct (n <? 10).
  - constructor; [unfold plain, CR, LF; lia|].
    eapply Forall_impl; [apply digit_plain|apply str_of_N_digits].
  - eapply Forall_impl; [apply digit_plain|apply str_of_N_digits].
Qed.

Lemma strftime_http_plain (t : datetime) : Forall plain (strftime_http t).
Proof.
  unfold strftime_http.
  repeat (apply Forall_app; split);
    try apply pad2_plain;
    try (eapply Forall_impl; [apply digit_plain|apply str_of_N_digits]);
    try plain_concrete.
  - destruct (weekday t); plain_concrete.
  - destruct (month t); plain_concrete.
Qed.

Lemma plain_ascii (s : pystr) : Forall plain s -> Forall (fun c => c < 0x80) s.
Proof. apply Forall_impl. now intros c (H & _). Qed.

Lemma plain_no_CR (s : pystr) : Forall plain s -> Forall (fun c => c <> CR) s.
Proof. apply Forall_impl. now intros c (_ & H & _). Qed.

(** *** The head of a response *)

Lemma Forall_join {A} (P : A -> Prop) (sep : list A) (ls : list (list A)) :
  Forall P sep -> Forall (Forall P) ls -> Forall P (join sep ls).
Proof.
  intros Hsep. induction 1 as [|l ls Hl Hls IH]; [constructor|].
  destruct ls as [|l' ls]; [exact Hl|].
  change (Forall P (l ++ sep ++ join sep (l' :: ls))).
  apply Forall_app. split; [exact Hl|].
  apply Forall_app. split; [exact Hsep|exact IH].
Qed.

Lemma map_join {A B} (f : A -> B) (sep : list A) (ls : list (list A)) :
  map f (join sep ls) = join (map f sep) (map (map f) ls).
Proof.
  induction ls as [|l ls IH]; [reflexivity|].
  destruct ls as [|l' ls]; [reflexivity|].
  change (map f (l ++ sep ++ join sep (l' :: ls))
          = map f l ++ map f sep ++ join (map f sep) (map (map f) (l' :: ls))).
  now rewrite !map_app, IH.
Qed.

Ltac plain_line :=
  first [ assumption
        | plain_concrete
        | apply Forall_app; split; plain_line ].

Lemma response_headers_plain w code reason ctype body :
  Forall plain reason -> Forall plain ctype ->
  Forall (Forall plain) (Server.response_headers w code reason ctype body).
Proof.
  intros Hr Hc. unfold Server.response_headers, Server.date_header.
  assert (Hz : Forall plain (str_of_Z code))
    by (eapply Forall_impl; [apply numeral_plain|apply str_of_Z_numeral]).
  assert (Hn : Forall plain (str_of_N (N.of_nat (List.length body))))
    by (eapply Forall_impl; [apply digit_plain|apply str_of_N_digits]).
  pose proof (strftime_http_plain (utcnow w)) as Hd.
  apply Forall_cons; [plain_line|].
  apply Forall_cons; [plain_line|].
  apply Forall_cons; [plain_line|].
  apply Forall_cons; [plain_line|].
  apply Forall_cons; [plain_line|apply Forall_nil].
Qed.

Lemma CRLF_ascii : Forall (fun c => c < 0x80) Server.CRLF.
Proof. repeat constructor; unfold CR, LF; lia. Qed.

Lemma head_ascii (lines : list pystr) :
  Forall (Forall plain) lines ->
  Forall (fun c => c < 0x80) (join Server.CRLF lines).
Proof.
  intros Hl. apply Forall_join; [apply CRLF_ascii|].
  eapply Forall_impl; [|exact Hl]. apply plain_ascii.
Qed.

(** With ASCII status text and content type the response is sent, and its
    octets are known. *)
Lemma send_response_plain w code reason ctype body :
  Forall plain reason -> Forall plain ctype ->
  Server.send_response w code reason ctype body
  = Ok (Some (response_bytes w code reason ctype body)).
Proof.
  intros Hr Hc. unfold Server.send_response, response_bytes.
  rewrite encode_utf8_ascii; [reflexivity|].
  apply head_ascii. now apply response_headers_plain.
Qed.

Lemma send_404_plain w msg :
  Forall plain msg ->
  Server.send_404 w msg = Ok (Some (not_found_response w msg)).
Proof.
  intros Hm. unfold Server.send_404, not_found_response.
  rewrite encode_utf8_ascii.
  - simpl bind. apply send_response_plain; plain_concrete.
  - apply plain_ascii. repeat (apply Forall_app; split);
      try assumption; plain_concrete.
Qed.

(** ** The request line *)

Lemma decode_request_total (incoming : bytes) :
  exists request, Server.decode_request incoming = Ok request /\ encodable request.
Proof. apply decode_utf8_ignore_total. Qed.

(** A request line of three words is what the handler works on. *)
Lemma request_tokens_parse (incoming : bytes) (method raw version : pystr) :
  request_tokens incoming = [method; raw; version] ->
  exists request,
    Server.decode_request incoming = Ok request /\
    is_empty request = false /\
    Server.parse_request_line request = Ok (method, unquote raw).
Proof.
  unfold request_tokens. intros Ht.
  destruct (Server.decode_request incoming) as [request|] eqn:E; [|discriminate].
  exists request. split; [reflexivity|]. split.
  - destruct request; [discriminate Ht|reflexivity].
  - unfold Server.parse_request_line. now rewrite Ht.
Qed.

(** A substring [..] in the decoded path of a GET request is answered
    with 403. *)
Lemma dotdot_forbidden w doc_root incoming raw version :
  request_tokens incoming = [ulit "GET"; raw; version] ->
  contains [DOT; DOT] (unquote raw) = true ->
  Server.handle_request w doc_root incoming = Ok (Some (forbidden_response w)).
Proof.
  intros Ht Hc.
  destruct (request_tokens_parse _ _ _ _ Ht) as (request & E & Hne & Hp).
  unfold Server.handle_request. rewrite E. cbn [bind]. rewrite Hne, Hp.
  change (list_eqb (ulit "GET") (ulit "GET")) with true. cbn [negb].
  rewrite Hc. apply send_response_plain; plain_concrete.
Qed.

(** A [..] segment is in particular a [..] substring. *)
Lemma segment_is_substring (p : pystr) :
  has_dotdot_segment p = true -> contains [DOT; DOT] p = true.
Proof.
  unfold has_dotdot_segment. intros H.
  apply existsb_exists in H as (x & Hin & Hx).
  apply list_eqb_eq in Hx. subst x.
  apply split_infix in Hin. now apply contains_iff.
Qed.



(** C10.  The traversal test is a substring test: a GET request whose
    decoded path holds the two characters [..] anywhere gets the 403
    response.  This covers every path with a [..] segment and more, for
    instance [/notes..txt], which has no such segment. *)
Theorem dotdot_substring_forbidden w doc_root incoming raw version :
  request_tokens incoming = [ulit "GET"; raw; version] ->
  contains [DOT; DOT] (unquote raw) = true ->
  Server.handle_request w doc_root incoming = Ok (Some (forbidden_response w))
  /\ startswith (blit "HTTP/1.1 403 Forbidden") (forbidden_response w) = true
  /\ (forall p, has_dotdot_segment p = true -> contains [DOT; DOT] p = true)
  /\ (has_dotdot_segment (ulit "/notes..txt") = false
      /\ contains [DOT; DOT] (ulit "/notes..txt") = true).
Proof.
  intros Ht Hc.
  split; [now apply (dotdot_forbidden w doc_root incoming raw version)|].
  split; [reflexivity|].
  split; [apply segment_is_substring|]. split; reflexivity.
Qed.

Lemma dotdot_substring_forbidden_witness :
  let incoming := http_request "GET /notes..txt HTTP/1.1" in
  request_tokens incoming = [ulit "GET"; ulit "/notes..txt"; ulit "HTTP/1.1"] /\
  contains [DOT; DOT] (unquote (ulit "/notes..txt")) = true /\
  path_exists sample_world (ulit "www/notes..txt") = true /\
  Server.handle_request sample_world (ulit "www") incoming
  = Ok (Some (forbidden_response sample_world)).
Proof.
  split; [reflexivity|]. split; [reflexivity|]. split; [reflexivity|].
  apply (dotdot_substring_forbidden sample_world (ulit "www")
           (http_request "GET /notes..txt HTTP/1.1")
           (ulit "/notes..txt") (ulit "HTTP/1.1")); reflexivity.
Defined.

(** C9.  When the first line of the request does not consist of exactly
    three words, the handler sends nothing and returns normally; the accept
    loop closes the connection and goes on. *)
Theorem malformed_request_dropped w doc_root incoming :
  List.length (request_tokens incoming) <> 3%nat ->
  Server.handle_request w doc_root incoming = Ok None /\
  Server.serve_connection w doc_root incoming
  = {| Server.turn_sent := None; Server.turn_closed := true;
       Server.turn_continues := true |}.
Proof.
  intros Hlen.
  assert (Hh : Server.handle_request w doc_root incoming = Ok None).
  { unfold Server.handle_request. unfold request_tokens in Hlen.
    destruct (decode_request_total incoming) as (request & E & _).
    rewrite E in *. cbn [bind].
    destruct (is_empty request); [reflexivity|].
    unfold Server.parse_request_line.
    destruct (split_ws (strip (hd [] (split [LF] request))))
      as [|a [|b [|c [|d l]]]]; try reflexivity.
    now contradiction Hlen. }
  split; [exact Hh|]. unfold Server.serve_connection. now rewrite Hh.
Qed.

Lemma malformed_request_dropped_witness :
  let incoming := http_request "GET /index.html" in
  List.length (request_tokens incoming) <> 3%nat /\
  Server.handle_request sample_world (ulit "www") incoming = Ok None /\
  Server.serve_connection sample_world (ulit "www") incoming
  = {| Server.turn_sent := None; Server.turn_closed := true;
       Server.turn_continues := true |}.
Proof.
  split; [vm_compute; discriminate|].
  apply (malformed_request_dropped sample_world (ulit "www")).
  vm_compute. discriminate.
Defined.

(** ** Content types *)

Lemma classify_table w p ext m :
  lower w (snd (splitext p)) = ext ->
  Server.dict_get ext Server.SUPPORTED_MIMES = Some m ->
  m <> [] ->
  Server.str_in m (Server.dict_values Server.SUPPORTED_MIMES) = true ->
  Server.classify w p = Some m.
Proof.
  intros He Hg Hne Hin. unfold Server.classify. rewrite He, Hg.
  destruct m as [|c m]; [easy|]. cbn [Server.py_or]. now rewrite Hin.
Qed.

(** C2, as the code has it.  The three extensions of the table get their
    fixed content type.  For any other extension the type guessed by
    [mimetypes] is used when it is one of the three values of the table,
    and only otherwise the result is [None]; [None] is answered with 404. *)
Theorem classify_allow_list w p :
  let ext := lower w (snd (splitext p)) in
  (ext = ulit ".html" -> Server.classify w p = Some (ulit "text/html")) /\
  (ext = ulit ".png" -> Server.classify w p = Some (ulit "image/png")) /\
  (ext = ulit ".pdf" -> Server.classify w p = Some (ulit "application/pdf")) /\
  (ext <> ulit ".html" -> ext <> ulit ".png" -> ext <> ulit ".pdf" ->
   Server.classify w p = guessed_type w p) /\
  (Server.classify w p = None ->
   Server.serve_file w p
   = Ok (Some (not_found_response w (ulit "Unsupported file type or extension.")))
   /\ startswith (blit "HTTP/1.1 404 Not Found")
        (not_found_response w (ulit "Unsupported file type or extension."))
      = true).
Proof.
  cbv zeta. split; [|split; [|split; [|split]]].
  - intros E. now apply (classify_table w p _ _ E).
  - intros E. now apply (classify_table w p _ _ E).
  - intros E. now apply (classify_table w p _ _ E).
  - intros H1 H2 H3. unfold Server.classify, guessed_type.
    cbn [Server.dict_get Server.SUPPORTED_MIMES].
    rewrite !list_eqb_neq by assumption. cbn [Server.py_or].
    destruct (guess_type w p) as [m|]; [|reflexivity].
    now destruct (Server.str_in m _).
  - intros E. split; [|reflexivity].
    unfold Server.serve_file. rewrite E.
    apply send_404_plain. plain_concrete.
Qed.

Lemma classify_allow_list_witness :
  Server.classify sample_world (ulit "www/index.html") = Some (ulit "text/html")
  /\ Server.classify sample_world (ulit "www/sub/B.PNG") = Some (ulit "image/png")
  /\ Server.classify sample_world (ulit "www/sub/a.pdf")
     = Some (ulit "application/pdf")
  /\ Server.classify sample_world (ulit "www/notes.txt")
     = guessed_type sample_world (ulit "www/notes.txt")
  /\ Server.serve_file sample_world (ulit "www/notes.txt")
     = Ok (Some (not_found_response sample_world
                   (ulit "Unsupported file type or extension."))).
Proof.
  destruct (classify_allow_list sample_world (ulit "www/index.html"))
    as (Hhtml & _).
  destruct (classify_allow_list sample_world (ulit "www/sub/B.PNG"))
    as (_ & Hpng & _).
  destruct (classify_allow_list sample_world (ulit "www/sub/a.pdf"))
    as (_ & _ & Hpdf & _).
  destruct (classify_allow_list sample_world (ulit "www/notes.txt"))
    as (_ & _ & _ & Hother & Hnone).
  split; [apply Hhtml; reflexivity|].
  split; [apply Hpng; reflexivity|].
  split; [apply Hpdf; reflexivity|].
  split; [apply Hother; vm_compute; discriminate|].
  apply (proj1 (Hnone eq_refl)).
Defined.

(** C2 fails as stated: [.htm] is not in the table, yet the file is served
    as [text/html] with status 200. *)
Lemma classify_htm_served :
  let p := ulit "www/page.htm" in
  lower sample_world (snd (splitext p)) = ulit ".htm" /\
  Server.dict_get (ulit ".htm") Server.SUPPORTED_MIMES = None /\
  Server.classify sample_world p = Some (ulit "text/html") /\
  Server.classify sample_world p <> None /\
  Server.handle_request sample_world (ulit "www")
    (http_request "GET /page.htm HTTP/1.1")
  = Ok (Some (response_bytes sample_world 200 (ulit "OK") (ulit "text/html")
                (blit "<p>old</p>"))).
Proof. repeat split; try reflexivity. discriminate. Qed.

(** ** The headers of the responses *)









(** ** Taking a response apart *)


Lemma no_delimiter_contains (data : bytes) :
  no_delimiter data <-> contains Client.CRLFCRLF_b data = false.
Proof.
  unfold no_delimiter. split.
  - intros Hn. destruct (contains Client.CRLFCRLF_b data) eqn:E; [|reflexivity].
    apply contains_iff in E as (a & b & E). now apply Hn in E.
  - intros E p q Hd.
    assert (contains Client.CRLFCRLF_b data = true)
      by (apply contains_iff; now exists p, q).
    congruence.
Qed.

(** Without a delimiter the whole buffer is the head. *)
Lemma parse_response_lenient (data : bytes) :
  contains Client.CRLFCRLF_b data = false ->
  Client.parse_response data
  = Ok (split Client.CRLF (map Byte.to_N data), []).
Proof.
  intros E. unfold Client.parse_response, find.
  rewrite find_from_absent by exact E. cbn [Z.eqb decode_latin1 bind].
  change Client.CRLFCRLF with (map Byte.to_N Client.CRLFCRLF_b).
  unfold split at 2. rewrite split_go_absent.
  - reflexivity.
  - now rewrite contains_latin1.
Qed.


(** C8.  A buffer without a double CRLF is decoded without failure: all of
    it is the head, cut into lines, and the body is empty. *)
Theorem lenient_decode (data : bytes) :
  no_delimiter data ->
  Client.parse_response data = Ok (split Client.CRLF (map Byte.to_N data), [])
  /\ join Client.CRLF (split Client.CRLF (map Byte.to_N data))
     = map Byte.to_N data
  /\ (data <> [] ->
      Client.http_get_received data
      = Some (split Client.CRLF (map Byte.to_N data), [])).
Proof.
  intros Hn. apply no_delimiter_contains in Hn.
  pose proof (parse_response_lenient data Hn) as Hp.
  split; [exact Hp|]. split; [now apply join_split|].
  intros Hne. unfold Client.http_get_received. rewrite Hp.
  destruct data; [easy|reflexivity].
Qed.

Lemma lenient_decode_witness :
  let data := blit "HTTP/1.1 200 OK" ++ [x0d; x0a]
              ++ blit "Content-Type: text/html" ++ [x0d; x0a; x0d] in
  no_delimiter data /\
  Client.http_get_received data
  = Some ([ulit "HTTP/1.1 200 OK"; ulit "Content-Type: text/html"; [CR]], []).
Proof.
  cbv zeta.
  assert (Hn : no_delimiter (blit "HTTP/1.1 200 OK" ++ [x0d; x0a]
              ++ blit "Content-Type: text/html" ++ [x0d; x0a; x0d])).
  { apply no_delimiter_contains. reflexivity. }
  split; [exact Hn|].
  destruct (lenient_decode _ Hn) as (_ & _ & Hg).
  rewrite Hg; [reflexivity|discriminate].
Defined.

(** ** Text decoding on the two sides *)




(** ** From the octets of a response back to its parts *)

Lemma find_from_here {A} `{Eqb A} (p s : list A) (i : Z) :
  startswith p s = true -> find_from p s i = i.
Proof. intros E. destruct s; simpl in *; now rewrite E. Qed.

Lemma find_from_miss {A} `{Eqb A} (p : list A) x s (i : Z) :
  startswith p (x :: s) = false ->
  find_from p (x :: s) i = find_from p s (i + 1)%Z.
Proof. intros E. cbn [find_from]. now rewrite E. Qed.

(** The first double CRLF of a message comes right after its head. *)
Lemma find_after_head (ls : list bytes) (body : bytes) (i : Z) :
  ls <> [] -> Forall line_ok ls ->
  find_from Client.CRLFCRLF_b
    (join Server.CRLF_b ls ++ Client.CRLFCRLF_b ++ body) i
  = (i + Z.of_nat (List.length (join Server.CRLF_b ls)))%Z.
Proof.
  unfold bytes in *. intros Hne Hall. revert i.
  induction ls as [|l ls IH]; [easy|]. intros i.
  inversion Hall as [|? ? [Hl1 Hl2] Hls]; subst.
  destruct ls as [|l' ls].
  - cbn [join]. unfold Client.CRLFCRLF_b at 1.
    rewrite find_from_skip by exact Hl2.
    apply find_from_here. apply (startswith_app Client.CRLFCRLF_b body).
  - rewrite join_cons by easy. rewrite <- !app_assoc.
    unfold Client.CRLFCRLF_b at 1. rewrite find_from_skip by exact Hl2.
    fold Client.CRLFCRLF_b.
    assert (Hj : exists c r, join Server.CRLF_b (l' :: ls) = c :: r /\ c <> x0d).
    { inversion Hls as [|? ? [Hn Hc] _]; subst.
      destruct l' as [|c l']; [easy|]. inversion Hc; subst.
      destruct ls; simpl; eauto. }
    destruct Hj as (c & r & Hj & Hc).
    specialize (IH ltac:(easy) Hls).
    rewrite !length_app. rewrite Hj in *.
    cbn [Server.CRLF_b app].
    assert (Es : startswith Client.CRLFCRLF_b
                   (x0d :: x0a :: c :: r ++ Client.CRLFCRLF_b ++ body) = false).
    { cbn [startswith Client.CRLFCRLF_b].
      rewrite (elt_eqb_neq x0d c) by congruence.
      cbn [andb]. now rewrite !andb_false_r. }
    rewrite (find_from_miss _ _ _ _ Es).
    rewrite find_from_miss by reflexivity.
    change ((c :: r) ++ Client.CRLFCRLF_b ++ body)
      with (c :: r ++ Client.CRLFCRLF_b ++ body) in IH.
    rewrite IH. change (List.length Server.CRLF_b) with 2%nat.
    cbn [List.length]. lia.
Qed.

Lemma plain_line_ok (l : pystr) :
  l <> [] -> Forall plain l -> line_ok (ascii_bytes l).
Proof.
  intros Hne Hp. split.
  - destruct l; [easy|discriminate].
  - unfold ascii_bytes. apply Forall_map.
    eapply Forall_impl; [|exact Hp].
    intros c (H1 & H2 & _) E. apply H2.
    rewrite <- (to_N_byte_of_N c) by lia. now rewrite E.
Qed.

(** A message whose head lines are plain text is taken apart into exactly
    those lines and its body. *)
Lemma parse_wire (lines : list pystr) (body : bytes) :
  lines <> [] ->
  Forall (fun l => l <> []) lines ->
  Forall (Forall plain) lines ->
  Client.parse_response
    (ascii_bytes (join Server.CRLF lines) ++ Server.CRLFCRLF_b ++ body)
  = Ok (lines, body).
Proof.
  intros Hne Hnel Hpl.
  set (head := ascii_bytes (join Server.CRLF lines)).
  assert (Hhead : head = join Server.CRLF_b (map ascii_bytes lines)).
  { unfold head, ascii_bytes. now rewrite map_join. }
  unfold Client.parse_response, find.
  change Server.CRLFCRLF_b with Client.CRLFCRLF_b.
  rewrite Hhead, find_after_head.
  - rewrite <- Hhead. rewrite Z.add_0_l.
    destruct (Z.eqb_spec (Z.of_nat (List.length head)) (-1)); [lia|].
    unfold slice_to, slice_from.
    replace (Z.to_nat (Z.of_nat (List.length head) + 4))
      with (List.length head + 4)%nat by lia.
    rewrite Nat2Z.id.
    rewrite firstn_app, firstn_all, Nat.sub_diag. cbn [firstn].
    rewrite app_nil_r.
    rewrite skipn_app, skipn_all2 by lia. cbn [app].
    replace (List.length head + 4 - List.length head)%nat with 4%nat by lia.
    cbn [skipn Client.CRLFCRLF_b app].
    unfold decode_latin1. cbn [bind]. unfold head.
    rewrite map_to_N_ascii_bytes.
    + change Client.CRLF with (CR :: [LF]).
      change Server.CRLF with (CR :: [LF]).
      rewrite split_join; [reflexivity|exact Hne|].
      eapply Forall_impl; [|exact Hpl]. apply plain_no_CR.
    + eapply Forall_impl; [|apply (head_ascii lines Hpl)].
      intros c Hc. simpl in Hc. lia.
  - destruct lines; [easy|discriminate].
  - apply Forall_map. rewrite Forall_forall in *.
    intros l Hl. apply plain_line_ok; auto.
Qed.

(** ** Reading the status code and the headers *)

Lemma numeral_not_space (c : N) : is_numeral c -> isspace c = false.
Proof.
  unfold is_numeral, is_digit. intros Hc.
  assert (H : c = 45 \/ c = 48 \/ c = 49 \/ c = 50 \/ c = 51 \/ c = 52
              \/ c = 53 \/ c = 54 \/ c = 55 \/ c = 56 \/ c = 57) by lia.
  repeat (destruct H as [->|H]; [reflexivity|]). now subst.
Qed.

Lemma no_space_check (s : pystr) :
  forallb (fun c => negb (isspace c)) s = true ->
  Forall (fun c => isspace c = false) s.
Proof.
  intros E. apply Forall_forall. intros c Hc.
  rewrite forallb_forall in E. apply negb_true_iff. now apply E.
Qed.

(** A word followed by a white-space character is split off. *)
Lemma split_ws_go_word (d : pystr) (sp : N) (cur r : pystr) :
  Forall (fun c => isspace c = false) d -> isspace sp = true ->
  split_ws_go cur (d ++ sp :: r)
  = flush_word (rev d ++ cur) ++ split_ws_go [] r.
Proof.
  intros Hd Hsp. revert cur.
  induction Hd as [|c d Hc Hd IH]; intros cur.
  - cbn [app rev split_ws_go]. now rewrite Hsp.
  - cbn [app split_ws_go]. rewrite Hc, IH. cbn [rev].
    now rewrite <- app_assoc.
Qed.

Lemma flush_word_rev (d : pystr) : d <> [] -> flush_word (rev d ++ []) = [d].
Proof.
  intros Hne. rewrite app_nil_r. destruct (rev d) eqn:Er.
  - apply (f_equal (@rev N)) in Er. rewrite rev_involutive in Er. easy.
  - cbn [flush_word]. now rewrite <- Er, rev_involutive.
Qed.

Lemma status_code_of_headers w code reason ctype body :
  Client.status_code_of (Server.response_headers w code reason ctype body)
  = Ok code.
Proof.
  unfold Client.status_code_of, Server.response_headers. cbn [hd].
  unfold split_ws.
  change (ulit "HTTP/1.1 " ++ str_of_Z code ++ ulit " " ++ reason)
    with (ulit "HTTP/1.1" ++ 32 :: (str_of_Z code ++ 32 :: reason)).
  rewrite split_ws_go_word;
    [|now apply no_space_check|reflexivity].
  rewrite split_ws_go_word;
    [|eapply Forall_impl; [apply numeral_not_space|apply str_of_Z_numeral]
     |reflexivity].
  rewrite !flush_word_rev by (apply str_of_Z_nonempty || discriminate).
  cbn. apply int_of_str_of_Z.
Qed.

Lemma lstrip_ws_last (l : pystr) (c : N) :
  isspace c = false -> exists l', lstrip_ws (l ++ [c]) = l' ++ [c].
Proof.
  intros Hc. induction l as [|x l IH]; cbn [app lstrip_ws].
  - rewrite Hc. now exists [].
  - destruct (isspace x); [exact IH|]. now exists (x :: l).
Qed.

Lemma strip_head (c : N) (m : pystr) :
  isspace c = false -> exists m', strip (c :: m) = c :: m'.
Proof.
  intros Hc. unfold strip. cbn [lstrip_ws]. rewrite Hc. cbn [rev].
  destruct (lstrip_ws_last (rev m) c Hc) as (l' & ->).
  rewrite rev_app_distr. now exists (rev l').
Qed.

Lemma strip_no_space (s : pystr) :
  Forall (fun c => isspace c = false) s -> strip s = s.
Proof.
  intros Hs. unfold strip.
  assert (Hl : forall t, Forall (fun c => isspace c = false) t -> lstrip_ws t = t).
  { intros t Ht. destruct Ht as [|c t Hc Ht]; [reflexivity|].
    cbn [lstrip_ws]. now rewrite Hc. }
  rewrite (Hl s Hs). rewrite Hl by now apply Forall_rev.
  apply rev_involutive.
Qed.

Lemma split1_go_name {A} `{Eqb A} (sep cur s n v : list A) :
  split1_go sep cur s = [n; v] -> exists m, n = rev cur ++ m.
Proof.
  revert cur. induction s as [|x s IH]; intros cur; cbn [split1_go].
  - discriminate.
  - destruct (startswith sep (x :: s)).
    + intros [= <- _]. exists []. now rewrite app_nil_r.
    + intros E. apply IH in E as (m & ->). exists (x :: m).
      cbn [rev]. now rewrite <- app_assoc.
Qed.

Lemma list_eqb_head_neq {A} `{Eqb A} (x y : A) (a b : list A) :
  x <> y -> list_eqb (x :: a) (y :: b) = false.
Proof.
  intros Hn. unfold list_eqb. cbn [startswith].
  rewrite (elt_eqb_neq x y Hn). cbn [andb]. apply andb_false_r.
Qed.

(** A line whose first character cannot begin the wanted name is passed
    over by the header lookup. *)
Lemma get_header_loop_skip w (c : N) (h : pystr) rest (k : N) (key : pystr) :
  c < 0x80 -> c <> COLON -> isspace c = false ->
  (if (0x41 <=? c) && (c <=? 0x5A) then c + 32 else c) <> k ->
  Client.get_header_loop w ((c :: h) :: rest) (k :: key)
  = Client.get_header_loop w rest (k :: key).
Proof.
  intros Hascii Hcolon Hsp Hk. cbn [Client.get_header_loop].
  destruct (contains [COLON] (c :: h)); [|reflexivity].
  destruct (split1 [COLON] (c :: h)) as [|n [|v [|? ?]]] eqn:E;
    try reflexivity.
  unfold split1 in E. cbn [split1_go] in E.
  rewrite startswith_head_neq in E by exact Hcolon.
  apply split1_go_name in E as (m & ->).
  cbn [rev app]. destruct (strip_head c m Hsp) as (m' & ->).
  unfold lower, lower_with. cbn [flat_map].
  apply N.ltb_lt in Hascii. rewrite Hascii. cbn [app].
  now rewrite list_eqb_head_neq.
Qed.

Lemma content_type_found w ctype rest :
  Client.get_header_loop w ((ulit "Content-Type: " ++ ctype) :: rest)
    (ulit "content-type")
  = Some (strip ctype).
Proof. reflexivity. Qed.

Lemma content_type_passed w ctype rest :
  Client.get_header_loop w ((ulit "Content-Type: " ++ ctype) :: rest)
    (ulit "content-length")
  = Client.get_header_loop w rest (ulit "content-length").
Proof. reflexivity. Qed.

Lemma content_length_found w len rest :
  Client.get_header_loop w ((ulit "Content-Length: " ++ len) :: rest)
    (ulit "content-length")
  = Some (strip len).
Proof. reflexivity. Qed.

Lemma header_lookups w code reason ctype body :
  let hs := Server.response_headers w code reason ctype body in
  Client.get_header_value w hs (ulit "Content-Type") = Some (strip ctype) /\
  Client.get_header_value w hs (ulit "Content-Length")
  = Some (str_of_N (N.of_nat (List.length body))).
Proof.
  cbv zeta. unfold Client.get_header_value, Server.response_headers.
  change (lower w (ulit "Content-Type")) with (ulit "content-type").
  change (lower w (ulit "Content-Length")) with (ulit "content-length").
  assert (Hdate : exists d, Server.date_header w = 68 :: d)
    by (now eexists).
  destruct Hdate as (d & ->).
  change (ulit "HTTP/1.1 " ++ str_of_Z code ++ ulit " " ++ reason)
    with (72 :: (ulit "TTP/1.1 " ++ str_of_Z code ++ ulit " " ++ reason)).
  change (ulit "content-type") with (99 :: ulit "ontent-type").
  change (ulit "content-length") with (99 :: ulit "ontent-length").
  rewrite !get_header_loop_skip by (reflexivity || discriminate).
  change (99 :: ulit "ontent-type") with (ulit "content-type").
  change (99 :: ulit "ontent-length") with (ulit "content-length").
  rewrite content_type_found, content_type_passed, content_length_found.
  split; [reflexivity|]. f_equal. apply strip_no_space.
  eapply Forall_impl; [|apply str_of_N_digits].
  intros c Hc. apply numeral_not_space. now right.
Qed.

Lemma str_of_Z_of_N (n : N) : str_of_Z (Z.of_N n) = str_of_N n.
Proof. destruct n; reflexivity. Qed.

(** What a client reads from a response built with plain status text and
    content type. *)
Lemma encode_then_decode w code reason ctype body :
  header_safe reason = true -> header_safe ctype = true ->
  strip ctype = ctype ->
  exists bs hs,
    Server.send_response w code reason ctype body = Ok (Some bs) /\
    Client.parse_response bs = Ok (hs, body) /\
    Client.status_code_of hs = Ok code /\
    Client.get_header_value w hs (ulit "Content-Type") = Some ctype /\
    Client.get_header_value w hs (ulit "Content-Length")
    = Some (str_of_N (N.of_nat (List.length body))).
Proof.
  intros Hr Hc Hs. apply header_safe_iff in Hr, Hc.
  exists (response_bytes w code reason ctype body),
         (Server.response_headers w code reason ctype body).
  split; [now apply send_response_plain|].
  split.
  { unfold response_bytes. apply parse_wire.
    - discriminate.
    - unfold Server.response_headers, Server.date_header.
      repeat (apply Forall_cons; [discriminate|]). apply Forall_nil.
    - now apply response_headers_plain. }
  split; [apply status_code_of_headers|].
  destruct (header_lookups w code reason ctype body) as [H1 H2].
  rewrite Hs in H1. now split.
Qed.

(** C6, as the code has it.  For a status text and a content type that are
    ASCII without CR or LF, the content type having no white space at its
    ends, the client reads back from the encoded response the same status
    code, the same content type and the very octets of the body, and the
    [Content-Length] it reads is the decimal length of the body.  Encoding
    what was read once more, at any time and with any such status text,
    and reading again gives the same three parts. *)
Theorem response_round_trip w code reason ctype body :
  header_safe reason = true -> header_safe ctype = true ->
  strip ctype = ctype ->
  exists bs hs,
    Server.send_response w code reason ctype body = Ok (Some bs) /\
    Client.parse_response bs = Ok (hs, body) /\
    Client.status_code_of hs = Ok code /\
    Client.get_header_value w hs (ulit "Content-Type") = Some ctype /\
    Client.get_header_value w hs (ulit "Content-Length")
    = Some (str_of_N (N.of_nat (List.length body))) /\
    int_of_str (str_of_N (N.of_nat (List.length body)))
    = Ok (Z.of_nat (List.length body)) /\
    forall w' reason', header_safe reason' = true ->
      exists bs' hs',
        Server.send_response w' code reason' ctype body = Ok (Some bs') /\
        Client.parse_response bs' = Ok (hs', body) /\
        Client.status_code_of hs' = Ok code /\
        Client.get_header_value w' hs' (ulit "Content-Type") = Some ctype.
Proof.
  intros Hr Hc Hs.
  destruct (encode_then_decode w code reason ctype body Hr Hc Hs)
    as (bs & hs & H1 & H2 & H3 & H4 & H5).
  exists bs, hs. repeat (split; [assumption|]). split.
  - rewrite <- str_of_Z_of_N, int_of_str_of_Z. now rewrite nat_N_Z.
  - intros w' reason' Hr'.
    destruct (encode_then_decode w' code reason' ctype body Hr' Hc Hs)
      as (bs' & hs' & H1' & H2' & H3' & H4' & _).
    now exists bs', hs'.
Qed.

Lemma response_round_trip_witness :
  header_safe (ulit "OK") = true /\
  header_safe (ulit "text/html; charset=utf-8") = true /\
  strip (ulit "text/html; charset=utf-8") = ulit "text/html; charset=utf-8" /\
  exists bs hs,
    Server.send_response sample_world 200 (ulit "OK")
      (ulit "text/html; charset=utf-8") [x00; xff; x0d; x0a; x0d; x0a; x41]
    = Ok (Some bs) /\
    Client.parse_response bs = Ok (hs, [x00; xff; x0d; x0a; x0d; x0a; x41]) /\
    Client.status_code_of hs = Ok 200%Z /\
    Client.get_header_value sample_world hs (ulit "Content-Type")
    = Some (ulit "text/html; charset=utf-8") /\
    Client.get_header_value sample_world hs (ulit "Content-Length")
    = Some (ulit "7").
Proof.
  split; [reflexivity|]. split; [reflexivity|]. split; [reflexivity|].
  destruct (response_round_trip sample_world 200 (ulit "OK")
              (ulit "text/html; charset=utf-8")
              [x00; xff; x0d; x0a; x0d; x0a; x41]
              eq_refl eq_refl eq_refl)
    as (bs & hs & H1 & H2 & H3 & H4 & H5 & _).
  exists bs, hs. repeat (split; [assumption|]). exact H5.
Defined.

(** C6 fails as stated: with a content type that holds a double CRLF the
    body read back is not the body sent, and a content type outside ASCII
    is read back as other characters. *)
Lemma round_trip_broken :
  (exists bs hs body',
      Server.send_response sample_world 200 (ulit "OK")
        (ulit "text/html" ++ [CR; LF; CR; LF] ++ ulit "x") (blit "body")
      = Ok (Some bs) /\
      Client.parse_response bs = Ok (hs, body') /\
      body' <> blit "body" /\
      Client.get_header_value sample_world hs (ulit "Content-Type")
      <> Some (ulit "text/html" ++ [CR; LF; CR; LF] ++ ulit "x") /\
      Client.get_header_value sample_world hs (ulit "Content-Length") = None)
  /\
  (exists bs hs,
      Server.send_response sample_world 200 (ulit "OK")
        (ulit "text/caf" ++ [233]) (blit "body")
      = Ok (Some bs) /\
      Client.parse_response bs = Ok (hs, blit "body") /\
      Client.get_header_value sample_world hs (ulit "Content-Type")
      = Some (ulit "text/caf" ++ [195; 169])).
Proof.
  split.
  - eexists. eexists. eexists.
    split; [vm_compute; reflexivity|].
    split; [vm_compute; reflexivity|].
    split; [discriminate|]. split; [discriminate|]. reflexivity.
  - eexists. eexists.
    split; [vm_compute; reflexivity|].
    split; vm_compute; reflexivity.
Qed.

(** ** The decoded path can always be encoded again *)

Section Preservation.
Variable P : N -> Prop.

Lemma Forall_infix (s x a b : pystr) :
  s = a ++ x ++ b -> Forall P s -> Forall P x.
Proof.
  intros -> Hs. apply Forall_app in Hs as [_ Hs].
  now apply Forall_app in Hs as [Hs _].
Qed.

Lemma Forall_first_line (s : pystr) :
  Forall P s -> Forall P (hd [] (split [LF] s)).
Proof.
  intros Hs. destruct (split [LF] s) as [|x l] eqn:E; [constructor|].
  assert (Hin : In x (split [LF] s)) by (rewrite E; now left).
  apply split_infix in Hin as (a & b & Hab).
  exact (Forall_infix _ _ _ _ Hab Hs).
Qed.

Lemma Forall_lstrip_ws (s : pystr) : Forall P s -> Forall P (lstrip_ws s).
Proof.
  induction 1 as [|c s Hc Hs IH]; [constructor|].
  cbn [lstrip_ws]. destruct (isspace c); [exact IH|now constructor].
Qed.

Lemma Forall_strip (s : pystr) : Forall P s -> Forall P (strip s).
Proof.
  intros Hs. unfold strip.
  apply Forall_rev, Forall_lstrip_ws, Forall_rev, Forall_lstrip_ws, Hs.
Qed.

Lemma Forall_split_ws_go (cur s : pystr) :
  Forall P cur -> Forall P s -> Forall (Forall P) (split_ws_go cur s).
Proof.
  intros Hcur Hs. revert cur Hcur.
  assert (Hf : forall cur, Forall P cur -> Forall (Forall P) (flush_word cur)).
  { intros [|c cur] Hc; [constructor|].
    cbn [flush_word]. constructor; [now apply Forall_rev|constructor]. }
  induction Hs as [|c s Hc Hs IH]; intros cur Hcur; cbn [split_ws_go].
  - now apply Hf.
  - destruct (isspace c).
    + apply Forall_app. split; [now apply Hf|]. apply IH. constructor.
    + apply IH. now constructor.
Qed.

End Preservation.

Lemma request_tokens_encodable (incoming : bytes) :
  Forall encodable (request_tokens incoming).
Proof.
  unfold request_tokens.
  destruct (decode_request_total incoming) as (request & -> & He).
  apply Forall_split_ws_go; [constructor|].
  apply Forall_strip, Forall_first_line, He.
Qed.

Lemma unquote_parts_encodable (run s : pystr) :
  encodable s -> encodable (unquote_parts run s).
Proof.
  intros Hs. revert run.
  induction Hs as [|c s Hc Hs IH]; intros run; cbn [unquote_parts].
  - apply replace_events_encodable, utf8_scan_ok.
  - destruct (c <? 0x80); [apply IH|].
    apply encodable_app. split.
    + apply replace_events_encodable, utf8_scan_ok.
    + constructor; [exact Hc|apply IH].
Qed.

Lemma unquote_encodable (s : pystr) : encodable s -> encodable (unquote s).
Proof.
  intros Hs. unfold unquote.
  destruct (negb (contains [PERCENT] s)); [exact Hs|].
  now apply unquote_parts_encodable.
Qed.

(** ** The redirect *)



Lemma isdir_exists w p : isdir w p = true -> path_exists w p = true.
Proof. unfold isdir, path_exists. now destruct (fs w p). Qed.



(** ** Sorting the entries *)

Lemma str_leb_total (a b : pystr) : str_leb a b = false -> str_leb b a = true.
Proof.
  revert b. induction a as [|x a IH]; intros [|y b]; cbn [str_leb]; try easy.
  intros E. apply orb_false_elim in E as [E1 E2].
  apply N.ltb_ge in E1. destruct (x =? y) eqn:Exy.
  - apply N.eqb_eq in Exy. subst y. cbn [andb] in E2.
    rewrite N.eqb_refl, (IH _ E2). apply orb_true_r.
  - apply N.eqb_neq in Exy.
    assert (Hlt : y < x) by lia. apply N.ltb_lt in Hlt. now rewrite Hlt.
Qed.

Lemma str_leb_trans (a b c : pystr) :
  str_leb a b = true -> str_leb b c = true -> str_leb a c = true.
Proof.
  revert b c. induction a as [|x a IH]; intros [|y b] [|z c];
    cbn [str_leb]; try easy.
  intros H1 H2.
  apply orb_prop in H1. apply orb_prop in H2.
  destruct H1 as [H1|H1], H2 as [H2|H2].
  - apply N.ltb_lt in H1, H2.
    assert (H : x < z) by lia. apply N.ltb_lt in H. now rewrite H.
  - apply andb_prop in H2 as [H2 _]. apply N.eqb_eq in H2. subst z.
    now rewrite H1.
  - apply andb_prop in H1 as [H1 _]. apply N.eqb_eq in H1. subst y.
    now rewrite H2.
  - apply andb_prop in H1 as [H1 H1']. apply andb_prop in H2 as [H2 H2'].
    apply N.eqb_eq in H1, H2. subst y z.
    rewrite N.eqb_refl, (IH _ _ H1' H2'). apply orb_true_r.
Qed.

Lemma str_leb_antisym (a b : pystr) :
  str_leb a b = true -> str_leb b a = true -> a = b.
Proof.
  revert b. induction a as [|x a IH]; intros [|y b]; cbn [str_leb]; try easy.
  intros H1 H2. apply orb_prop in H1. apply orb_prop in H2.
  destruct H1 as [H1|H1], H2 as [H2|H2];
    repeat match goal with
    | H : (_ <? _) = true |- _ => apply N.ltb_lt in H
    | H : (_ && _) = true |- _ => apply andb_prop in H; destruct H
    | H : (_ =? _) = true |- _ => apply N.eqb_eq in H
    end; try lia.
  subst. f_equal. now apply IH.
Qed.

Lemma insert_sorted_perm (x : pystr) (l : list pystr) :
  Permutation (x :: l) (insert_sorted x l).
Proof.
  induction l as [|y l IH]; cbn [insert_sorted]; [reflexivity|].
  destruct (str_leb x y); [reflexivity|].
  rewrite perm_swap. now apply perm_skip.
Qed.

Lemma sorted_perm (l : list pystr) : Permutation l (sorted l).
Proof.
  induction l as [|x l IH]; cbn [sorted]; [reflexivity|].
  rewrite <- insert_sorted_perm. now apply perm_skip.
Qed.

Lemma insert_sorted_Sorted (x : pystr) (l : list pystr) :
  Sorted str_le l -> Sorted str_le (insert_sorted x l).
Proof.
  induction 1 as [|y l Hs IH Hhd]; cbn [insert_sorted].
  - repeat constructor.
  - destruct (str_leb x y) eqn:E.
    + constructor; [now constructor|]. now constructor.
    + constructor; [exact IH|].
      apply str_leb_total in E.
      destruct l as [|z l]; cbn [insert_sorted].
      * now constructor.
      * destruct (str_leb x z); constructor; [exact E|].
        now inversion Hhd.
Qed.

Lemma sorted_Sorted (l : list pystr) : Sorted str_le (sorted l).
Proof.
  induction l as [|x l IH]; cbn [sorted]; [constructor|].
  now apply insert_sorted_Sorted.
Qed.

Lemma sorted_StronglySorted (l : list pystr) : StronglySorted str_le (sorted l).
Proof.
  apply Sorted_StronglySorted; [|apply sorted_Sorted].
  intros a b c. apply str_leb_trans.
Qed.

(** ** The listing *)

Lemma quote_encodable (item : pystr) :
  encodable item -> quote item = Ok (percent_encoded item).
Proof.
  intros He. unfold percent_encoded, quote.
  destruct (encode_utf8_encodable _ He) as (bs & ->). reflexivity.
Qed.

Lemma listing_item_line w path requested_path item :
  encodable item ->
  Server.listing_item w path requested_path item
  = Ok (entry_line w path requested_path item).
Proof.
  intros He. unfold Server.listing_item, entry_line.
  rewrite (quote_encodable _ He). cbn [bind].
  now destruct (isdir w (path_join path item)).
Qed.

(** The loop appends the lines of the items, in their order. *)
Lemma listing_loop_lines w path requested_path items html :
  Forall encodable items ->
  Server.listing_loop w path requested_path items html
  = Ok (html ++ flat_map (entry_line w path requested_path) items).
Proof.
  intros Hall. revert html.
  induction Hall as [|item items He Hall IH]; intros html.
  - cbn. now rewrite app_nil_r.
  - cbn [Server.listing_loop flat_map].
    rewrite (listing_item_line _ _ _ _ He). cbn [bind].
    rewrite IH. now rewrite <- app_assoc.
Qed.




(** * Further properties of the handler *)

(** ** The branches of [handle_request] *)

Lemma decoded_path_encodable incoming method raw version :
  request_tokens incoming = [method; raw; version] -> encodable (unquote raw).
Proof.
  intros Ht. apply unquote_encodable.
  pose proof (request_tokens_encodable incoming) as Hall.
  rewrite Ht in Hall. inversion Hall as [|? ? _ Hall']; subst.
  now inversion Hall'.
Qed.

(** What the handler does with a GET request whose decoded path has no
    [..] in it: the resolution of the path against the file system. *)
Lemma handle_request_resolve w doc_root incoming raw version :
  request_tokens incoming = [ulit "GET"; raw; version] ->
  contains [DOT; DOT] (unquote raw) = false ->
  Server.handle_request w doc_root incoming
  = let url_path := unquote raw in
    let is_directory_request := endswith [SLASH] url_path in
    let dir_path := path_join doc_root (lstrip1 SLASH url_path) in
    let local_path :=
      if is_directory_request
      then path_join3 doc_root (lstrip1 SLASH url_path) (ulit "index.html")
      else dir_path in
    let found :=
      if path_exists w local_path then Some local_path
      else if is_directory_request && isdir w dir_path then Some dir_path
      else None in
    match found with
    | None => Server.send_404 w Server.default_404_msg
    | Some local_path =>
        if isdir w local_path then
          if negb (endswith [SLASH] url_path) then
            Server.send_redirect w (url_path ++ [SLASH])
          else
            body <- Server.generate_dir_listing w local_path url_path ;;
            Server.send_response w 200 (ulit "OK")
              (ulit "text/html; charset=utf-8") body
        else Server.serve_file w local_path
    end.
Proof.
  intros Ht Hdd.
  destruct (request_tokens_parse _ _ _ _ Ht) as (request & E & Hne & Hp).
  unfold Server.handle_request. rewrite E. cbn [bind]. rewrite Hne, Hp.
  change (list_eqb (ulit "GET") (ulit "GET")) with true. cbn [negb].
  now rewrite Hdd.
Qed.

(** X1.  Any method other than GET is answered with the 501 response,
    whatever the path is, a path with [..] in it included. *)
Theorem other_method_not_implemented w doc_root incoming method raw version :
  request_tokens incoming = [method; raw; version] ->
  method <> ulit "GET" ->
  Server.handle_request w doc_root incoming
  = Ok (Some (response_bytes w 501 (ulit "Not Implemented") (ulit "text/plain")
                (blit "501 Not Implemented")))
  /\ startswith (blit "HTTP/1.1 501 Not Implemented")
       (response_bytes w 501 (ulit "Not Implemented") (ulit "text/plain")
          (blit "501 Not Implemented")) = true.
Proof.
  intros Ht Hm. split; [|reflexivity].
  destruct (request_tokens_parse _ _ _ _ Ht) as (request & E & Hne & Hp).
  unfold Server.handle_request. rewrite E. cbn [bind]. rewrite Hne, Hp.
  rewrite (list_eqb_neq _ _ Hm). cbn [negb].
  apply send_response_plain; plain_concrete.
Qed.

Lemma other_method_not_implemented_witness :
  let incoming := http_request "POST /../etc/passwd HTTP/1.1" in
  request_tokens incoming
  = [ulit "POST"; ulit "/../etc/passwd"; ulit "HTTP/1.1"] /\
  Server.handle_request sample_world (ulit "www") incoming
  = Ok (Some (response_bytes sample_world 501 (ulit "Not Implemented")
                (ulit "text/plain") (blit "501 Not Implemented"))).
Proof.
  split; [reflexivity|].
  apply (other_method_not_implemented sample_world (ulit "www")
           (http_request "POST /../etc/passwd HTTP/1.1")
           (ulit "POST") (ulit "/../etc/passwd") (ulit "HTTP/1.1"));
    [reflexivity|discriminate].
Defined.

(** The path the handler looks up first: the index file for a directory
    request, the path under the document root otherwise. *)
Lemma lookup_not_found w doc_root url_path :
  path_exists w
    (if endswith [SLASH] url_path
     then path_join3 doc_root (lstrip1 SLASH url_path) (ulit "index.html")
     else path_join doc_root (lstrip1 SLASH url_path)) = false ->
  isdir w (path_join doc_root (lstrip1 SLASH url_path)) = false ->
  (if path_exists w
        (if endswith [SLASH] url_path
         then path_join3 doc_root (lstrip1 SLASH url_path) (ulit "index.html")
         else path_join doc_root (lstrip1 SLASH url_path))
   then Some (if endswith [SLASH] url_path
              then path_join3 doc_root (lstrip1 SLASH url_path) (ulit "index.html")
              else path_join doc_root (lstrip1 SLASH url_path))
   else if endswith [SLASH] url_path
           && isdir w (path_join doc_root (lstrip1 SLASH url_path))
        then Some (path_join doc_root (lstrip1 SLASH url_path))
        else None) = None.
Proof. intros -> ->. now rewrite andb_false_r. Qed.

Lemma handle_request_missing w doc_root incoming raw version :
  request_tokens incoming = [ulit "GET"; raw; version] ->
  contains [DOT; DOT] (unquote raw) = false ->
  path_exists w
    (if endswith [SLASH] (unquote raw)
     then path_join3 doc_root (lstrip1 SLASH (unquote raw)) (ulit "index.html")
     else path_join doc_root (lstrip1 SLASH (unquote raw))) = false ->
  isdir w (path_join doc_root (lstrip1 SLASH (unquote raw))) = false ->
  Server.handle_request w doc_root incoming
  = Ok (Some (not_found_response w Server.default_404_msg)).
Proof.
  intros Ht Hdd Hex Hdir.
  rewrite (handle_request_resolve _ _ _ _ _ Ht Hdd). cbv zeta.
  rewrite (lookup_not_found _ _ _ Hex Hdir).
  apply send_404_plain. plain_concrete.
Qed.

(** X2.  A GET request for a path without [..] under which the file system
    has nothing -- neither the path itself, nor, for a path ending in [/],
    its index file or the directory -- is answered with the 404 response and
    its standard message. *)
Theorem missing_resource_not_found w doc_root incoming raw version :
  request_tokens incoming = [ulit "GET"; raw; version] ->
  contains [DOT; DOT] (unquote raw) = false ->
  path_exists w
    (if endswith [SLASH] (unquote raw)
     then path_join3 doc_root (lstrip1 SLASH (unquote raw)) (ulit "index.html")
     else path_join doc_root (lstrip1 SLASH (unquote raw))) = false ->
  isdir w (path_join doc_root (lstrip1 SLASH (unquote raw))) = false ->
  Server.handle_request w doc_root incoming
  = Ok (Some (not_found_response w Server.default_404_msg))
  /\ startswith (blit "HTTP/1.1 404 Not Found")
       (not_found_response w Server.default_404_msg) = true.
Proof.
  intros Ht Hdd Hex Hdir. split; [|reflexivity].
  now apply (handle_request_missing w doc_root incoming raw version).
Qed.

Lemma missing_resource_not_found_witness :
  let incoming := http_request "GET /missing.png HTTP/1.1" in
  request_tokens incoming = [ulit "GET"; ulit "/missing.png"; ulit "HTTP/1.1"] /\
  Server.handle_request sample_world (ulit "www") incoming
  = Ok (Some (not_found_response sample_world Server.default_404_msg)).
Proof.
  split; [reflexivity|].
  apply (missing_resource_not_found sample_world (ulit "www")
           (http_request "GET /missing.png HTTP/1.1")
           (ulit "/missing.png") (ulit "HTTP/1.1")); reflexivity.
Defined.

(** ** Serving a file *)

(** A content type that passes the allow-list is one of its three values. *)
Lemma classify_values w p m :
  Server.classify w p = Some m ->
  m = ulit "text/html" \/ m = ulit "image/png" \/ m = ulit "application/pdf".
Proof.
  unfold Server.classify.
  destruct (Server.py_or _ _) as [m'|]; [|discriminate].
  destruct (Server.str_in m' _) eqn:E; cbn [negb]; [|discriminate].
  intros [= ->]. unfold Server.str_in in E.
  apply existsb_exists in E as (v & Hin & Hv). apply list_eqb_eq in Hv. subst v.
  destruct Hin as [<-|[<-|[<-|[]]]]; auto.
Qed.

Lemma classify_plain w p m :
  Server.classify w p = Some m -> header_safe m = true /\ strip m = m.
Proof.
  intros E. apply classify_values in E as [->|[->| ->]]; now split.
Qed.

(** The first lookup of the handler, for a path that exists and is a
    file. *)
Lemma handle_request_file w doc_root incoming raw version content :
  request_tokens incoming = [ulit "GET"; raw; version] ->
  contains [DOT; DOT] (unquote raw) = false ->
  fs w (if endswith [SLASH] (unquote raw)
        then path_join3 doc_root (lstrip1 SLASH (unquote raw)) (ulit "index.html")
        else path_join doc_root (lstrip1 SLASH (unquote raw)))
  = Some (FileNode content) ->
  Server.handle_request w doc_root incoming
  = Server.serve_file w
      (if endswith [SLASH] (unquote raw)
       then path_join3 doc_root (lstrip1 SLASH (unquote raw)) (ulit "index.html")
       else path_join doc_root (lstrip1 SLASH (unquote raw))).
Proof.
  intros Ht Hdd Hfs.
  rewrite (handle_request_resolve _ _ _ _ _ Ht Hdd). cbv zeta.
  unfold path_exists. rewrite Hfs. unfold isdir. now rewrite Hfs.
Qed.

(** The response for a readable file of an allowed type, and what
    [parse_response] makes of it. *)
Lemma file_served_verbatim_core w doc_root incoming raw version body m :
  request_tokens incoming = [ulit "GET"; raw; version] ->
  contains [DOT; DOT] (unquote raw) = false ->
  fs w (if endswith [SLASH] (unquote raw)
        then path_join3 doc_root (lstrip1 SLASH (unquote raw)) (ulit "index.html")
        else path_join doc_root (lstrip1 SLASH (unquote raw)))
  = Some (FileNode (Some body)) ->
  Server.classify w
    (if endswith [SLASH] (unquote raw)
     then path_join3 doc_root (lstrip1 SLASH (unquote raw)) (ulit "index.html")
     else path_join doc_root (lstrip1 SLASH (unquote raw))) = Some m ->
  Server.handle_request w doc_root incoming
  = Ok (Some (response_bytes w 200 (ulit "OK") m body)) /\
  Client.parse_response (response_bytes w 200 (ulit "OK") m body)
  = Ok (Server.response_headers w 200 (ulit "OK") m body, body).
Proof.
  intros Ht Hdd Hfs Hc.
  destruct (classify_plain _ _ _ Hc) as [Hm Hs]. apply header_safe_iff in Hm.
  split.
  - rewrite (handle_request_file _ _ _ _ _ _ Ht Hdd Hfs).
    unfold Server.serve_file, read_file. rewrite Hc, Hfs.
    apply send_response_plain; [plain_concrete|exact Hm].
  - unfold response_bytes. apply parse_wire.
    + discriminate.
    + unfold Server.response_headers, Server.date_header.
      repeat (apply Forall_cons; [discriminate|]). apply Forall_nil.
    + apply response_headers_plain; [plain_concrete|exact Hm].
Qed.

(** X3.  A GET request that resolves to a readable file whose type passes
    the allow-list is answered with status 200, that type as content type,
    and the octets of the file as they are; a client taking the response
    apart gets exactly these back. *)
Theorem file_served_verbatim w doc_root incoming raw version body m :
  request_tokens incoming = [ulit "GET"; raw; version] ->
  contains [DOT; DOT] (unquote raw) = false ->
  let local_path :=
    if endswith [SLASH] (unquote raw)
    then path_join3 doc_root (lstrip1 SLASH (unquote raw)) (ulit "index.html")
    else path_join doc_root (lstrip1 SLASH (unquote raw)) in
  fs w local_path = Some (FileNode (Some body)) ->
  Server.classify w local_path = Some m ->
  Server.handle_request w doc_root incoming
  = Ok (Some (response_bytes w 200 (ulit "OK") m body)) /\
  exists hs,
    Client.parse_response (response_bytes w 200 (ulit "OK") m body)
    = Ok (hs, body) /\
    Client.status_code_of hs = Ok 200%Z /\
    Client.get_header_value w hs (ulit "Content-Type") = Some m /\
    Client.get_header_value w hs (ulit "Content-Length")
    = Some (str_of_N (N.of_nat (List.length body))).
Proof.
  intros Ht Hdd local_path Hfs Hc.
  destruct (classify_plain _ _ _ Hc) as [Hm Hs].
  destruct (encode_then_decode w 200 (ulit "OK") m body eq_refl Hm Hs)
    as (bs & hs & H1 & H2 & H3 & H4 & H5).
  assert (Hb : bs = response_bytes w 200 (ulit "OK") m body).
  { rewrite send_response_plain in H1.
    - now injection H1.
    - plain_concrete.
    - now apply header_safe_iff. }
  subst bs. split; [|now exists hs].
  rewrite (handle_request_file _ _ _ _ _ _ Ht Hdd Hfs).
  fold local_path. unfold Server.serve_file, read_file.
  now rewrite Hc, Hfs.
Qed.

Lemma file_served_verbatim_witness :
  let incoming := http_request "GET /sub/a.pdf HTTP/1.1" in
  request_tokens incoming = [ulit "GET"; ulit "/sub/a.pdf"; ulit "HTTP/1.1"] /\
  fs sample_world (ulit "www/sub/a.pdf") = Some (FileNode (Some (blit "%PDF"))) /\
  Server.handle_request sample_world (ulit "www") incoming
  = Ok (Some (response_bytes sample_world 200 (ulit "OK")
                (ulit "application/pdf") (blit "%PDF"))).
Proof.
  split; [reflexivity|]. split; [reflexivity|].
  apply (file_served_verbatim sample_world (ulit "www")
           (http_request "GET /sub/a.pdf HTTP/1.1")
           (ulit "/sub/a.pdf") (ulit "HTTP/1.1") (blit "%PDF")
           (ulit "application/pdf")); reflexivity.
Defined.

(** X4.  A GET request that resolves to a file is answered with 404 when
    its type does not pass the allow-list, and also when the type passes
    but the file cannot be opened or read; the two answers differ in their
    message. *)
Theorem unservable_file_not_found w doc_root incoming raw version content :
  request_tokens incoming = [ulit "GET"; raw; version] ->
  contains [DOT; DOT] (unquote raw) = false ->
  let local_path :=
    if endswith [SLASH] (unquote raw)
    then path_join3 doc_root (lstrip1 SLASH (unquote raw)) (ulit "index.html")
    else path_join doc_root (lstrip1 SLASH (unquote raw)) in
  fs w local_path = Some (FileNode content) ->
  (Server.classify w local_path = None ->
   Server.handle_request w doc_root incoming
   = Ok (Some (not_found_response w
                 (ulit "Unsupported file type or extension."))))
  /\
  (Server.classify w local_path <> None -> content = None ->
   Server.handle_request w doc_root incoming
   = Ok (Some (not_found_response w (ulit "File could not be opened/read.")))).
Proof.
  intros Ht Hdd local_path Hfs.
  rewrite (handle_request_file _ _ _ _ _ _ Ht Hdd Hfs). fold local_path.
  unfold Server.serve_file, read_file. rewrite Hfs. split.
  - intros ->. apply send_404_plain. plain_concrete.
  - intros Hc ->. destruct (Server.classify w local_path); [|easy].
    apply send_404_plain. plain_concrete.
Qed.

Lemma unservable_file_not_found_witness :
  (fs sample_world (ulit "www/sub/b.png") = Some (FileNode None) /\
   Server.handle_request sample_world (ulit "www")
     (http_request "GET /sub/b.png HTTP/1.1")
   = Ok (Some (not_found_response sample_world
                 (ulit "File could not be opened/read."))))
  /\
  (fs sample_world_txt (ulit "www/readme.txt")
   = Some (FileNode (Some (blit "read me"))) /\
   Server.classify sample_world_txt (ulit "www/readme.txt") = None /\
   Server.handle_request sample_world_txt (ulit "www")
     (http_request "GET /readme.txt HTTP/1.1")
   = Ok (Some (not_found_response sample_world_txt
                 (ulit "Unsupported file type or extension.")))).
Proof.
  split.
  - split; [reflexivity|].
    apply (unservable_file_not_found sample_world (ulit "www")
             (http_request "GET /sub/b.png HTTP/1.1")
             (ulit "/sub/b.png") (ulit "HTTP/1.1") None);
      [reflexivity|reflexivity|reflexivity|discriminate|reflexivity].
  - split; [reflexivity|]. split; [reflexivity|].
    apply (unservable_file_not_found sample_world_txt (ulit "www")
             (http_request "GET /readme.txt HTTP/1.1")
             (ulit "/readme.txt") (ulit "HTTP/1.1") (Some (blit "read me")));
      reflexivity.
Defined.

(** ** The index file of a directory *)

Lemma rfind1_from_app {A} `{Eqb A} (c : A) (a b : list A) (i last : Z) :
  rfind1_from c (a ++ b) i last
  = rfind1_from c b (i + Z.of_nat (List.length a))%Z (rfind1_from c a i last).
Proof.
  revert i last. induction a as [|x a IH]; intros i last.
  - cbn. now rewrite Z.add_0_r.
  - cbn [app rfind1_from List.length]. rewrite IH. f_equal. lia.
Qed.

Lemma rfind1_from_bounds {A} `{Eqb A} (c : A) (s : list A) (i last : Z) :
  (-1 <= last < i)%Z ->
  (-1 <= rfind1_from c s i last < i + Z.of_nat (List.length s))%Z.
Proof.
  revert i last. induction s as [|x s IH]; intros i last Hl.
  - cbn. lia.
  - cbn [rfind1_from List.length].
    destruct (elt_eqb x c).
    + specialize (IH (i + 1)%Z i ltac:(lia)). lia.
    + specialize (IH (i + 1)%Z last ltac:(lia)). lia.
Qed.

Lemma has_non_dot_app (a b : pystr) :
  has_non_dot b = true -> has_non_dot (a ++ b) = true.
Proof.
  intros Hb. induction a as [|x a IH]; [exact Hb|].
  cbn [app has_non_dot]. now destruct (negb (x =? DOT)).
Qed.

(** The extension of a path that ends in [index.html]. *)
Lemma splitext_index (y : pystr) :
  splitext (y ++ ulit "index.html") = (y ++ ulit "index", ulit ".html").
Proof.
  unfold splitext, rfind1.
  rewrite !rfind1_from_app. rewrite Z.add_0_l.
  set (n := List.length y).
  set (s := rfind1_from SLASH y 0 (-1)).
  set (d := rfind1_from DOT y 0 (-1)).
  assert (Hs : (-1 <= s < Z.of_nat n)%Z).
  { pose proof (rfind1_from_bounds SLASH y 0 (-1) ltac:(lia)). lia. }
  change (rfind1_from SLASH (ulit "index.html") (Z.of_nat n) s) with s.
  change (rfind1_from DOT (ulit "index.html") (Z.of_nat n) d)
    with (Z.of_nat n + 1 + 1 + 1 + 1 + 1)%Z.
  destruct (Z.ltb_spec s (Z.of_nat n + 1 + 1 + 1 + 1 + 1)); [|lia].
  unfold slice_to, slice_from.
  replace (Z.to_nat (Z.of_nat n + 1 + 1 + 1 + 1 + 1)) with (n + 5)%nat by lia.
  assert (Hsplit1 : firstn (n + 5) (y ++ ulit "index.html") = y ++ ulit "index").
  { rewrite firstn_app. replace (n + 5 - List.length y)%nat with 5%nat by (unfold n; lia).
    rewrite firstn_all2 by (unfold n; lia). reflexivity. }
  assert (Hsplit2 : skipn (n + 5) (y ++ ulit "index.html") = ulit ".html").
  { rewrite skipn_app. replace (n + 5 - List.length y)%nat with 5%nat by (unfold n; lia).
    rewrite skipn_all2 by (unfold n; lia). reflexivity. }
  rewrite Hsplit1, Hsplit2.
  assert (Hnd : has_non_dot
                  (firstn (Z.to_nat (Z.of_nat n + 1 + 1 + 1 + 1 + 1 - (s + 1)))
                     (skipn (Z.to_nat (s + 1)) (y ++ ulit "index.html"))) = true).
  { rewrite skipn_app.
    replace (Z.to_nat (s + 1) - List.length y)%nat with 0%nat by (unfold n in Hs; lia).
    cbn [skipn]. rewrite firstn_app.
    rewrite length_skipn.
    replace (Z.to_nat (Z.of_nat n + 1 + 1 + 1 + 1 + 1 - (s + 1))
             - (List.length y - Z.to_nat (s + 1)))%nat with 5%nat
      by (unfold n in *; lia).
    apply has_non_dot_app. reflexivity. }
  now rewrite Hnd.
Qed.

Lemma index_path_form (doc_root rest : pystr) :
  exists y, path_join3 doc_root rest (ulit "index.html") = y ++ ulit "index.html".
Proof.
  unfold path_join3. set (p := path_join doc_root rest).
  unfold path_join at 1.
  change (startswith [SLASH] (ulit "index.html")) with false. cbv iota.
  destruct (is_empty p || endswith [SLASH] p).
  - now exists p.
  - exists (p ++ [SLASH]). now rewrite <- app_assoc.
Qed.

Lemma classify_index w doc_root rest :
  Server.classify w (path_join3 doc_root rest (ulit "index.html"))
  = Some (ulit "text/html").
Proof.
  destruct (index_path_form doc_root rest) as (y & ->).
  apply (classify_table w _ (ulit ".html")); try reflexivity; try discriminate.
  now rewrite splitext_index.
Qed.

(** X5.  A GET request for a path ending in [/] under which there is a
    readable [index.html] is answered with status 200, content type
    [text/html] and the octets of that file, whatever the MIME database
    says and whether or not the directory could be listed. *)
Theorem index_file_served w doc_root incoming raw version body :
  request_tokens incoming = [ulit "GET"; raw; version] ->
  contains [DOT; DOT] (unquote raw) = false ->
  endswith [SLASH] (unquote raw) = true ->
  fs w (path_join3 doc_root (lstrip1 SLASH (unquote raw)) (ulit "index.html"))
  = Some (FileNode (Some body)) ->
  Server.handle_request w doc_root incoming
  = Ok (Some (response_bytes w 200 (ulit "OK") (ulit "text/html") body)).
Proof.
  intros Ht Hdd Hend Hfs.
  assert (Hfs' : fs w (if endswith [SLASH] (unquote raw)
                       then path_join3 doc_root (lstrip1 SLASH (unquote raw))
                              (ulit "index.html")
                       else path_join doc_root (lstrip1 SLASH (unquote raw)))
                 = Some (FileNode (Some body))) by now rewrite Hend.
  rewrite (handle_request_file _ _ _ _ _ _ Ht Hdd Hfs'). rewrite Hend.
  unfold Server.serve_file, read_file. rewrite classify_index, Hfs.
  apply send_response_plain; plain_concrete.
Qed.

Lemma index_file_served_witness :
  let incoming := http_request "GET / HTTP/1.1" in
  request_tokens incoming = [ulit "GET"; ulit "/"; ulit "HTTP/1.1"] /\
  fs sample_world (path_join3 (ulit "www") (lstrip1 SLASH (ulit "/"))
                     (ulit "index.html"))
  = Some (FileNode (Some (blit "<html>hi</html>"))) /\
  Server.handle_request sample_world (ulit "www") incoming
  = Ok (Some (response_bytes sample_world 200 (ulit "OK") (ulit "text/html")
                (blit "<html>hi</html>"))).
Proof.
  split; [reflexivity|]. split; [reflexivity|].
  apply (index_file_served sample_world (ulit "www")
           (http_request "GET / HTTP/1.1") (ulit "/") (ulit "HTTP/1.1"));
    reflexivity.
Defined.

(** ** What the path functions keep *)

Section PathPreservation.
Variable P : N -> Prop.
Hypothesis P_slash : P SLASH.
Hypothesis P_dot : P DOT.

Lemma Forall_lstrip1 (c : N) (s : pystr) : Forall P s -> Forall P (lstrip1 c s).
Proof.
  induction 1 as [|x s Hx Hs IH]; [constructor|].
  cbn [lstrip1]. destruct (elt_eqb x c); [exact IH|now constructor].
Qed.

Lemma Forall_path_join (a b : pystr) :
  Forall P a -> Forall P b -> Forall P (path_join a b).
Proof.
  intros Ha Hb. unfold path_join.
  destruct (startswith [SLASH] b); [exact Hb|].
  destruct (is_empty a || endswith [SLASH] a).
  - apply Forall_app. now split.
  - apply Forall_app. split; [exact Ha|]. now constructor.
Qed.

Lemma Forall_replace1 (a b : N) (s : pystr) :
  P b -> Forall P s -> Forall P (replace1 a b s).
Proof.
  intros Hb Hs. unfold replace1. apply Forall_map.
  eapply Forall_impl; [|exact Hs]. intros x Hx. now destruct (elt_eqb x a).
Qed.

Lemma Forall_split (sep s : pystr) : Forall P s -> Forall (Forall P) (split sep s).
Proof.
  intros Hs. apply Forall_forall. intros x Hx.
  apply split_infix in Hx as (a & b & E).
  exact (Forall_infix P _ _ _ _ E Hs).
Qed.

Lemma Forall_normpath_comps n acc comps :
  Forall (Forall P) acc -> Forall (Forall P) comps ->
  Forall (Forall P) (normpath_comps n acc comps).
Proof.
  intros Hacc Hc. revert acc Hacc.
  induction Hc as [|c comps Hc Hcs IH]; intros acc Hacc; cbn [normpath_comps].
  - now apply Forall_rev.
  - destruct (is_empty c || list_eqb c [DOT]); [now apply IH|].
    match goal with |- Forall _ (if ?b then _ else _) => destruct b end.
    + apply IH. now constructor.
    + apply IH. destruct Hacc; [constructor|assumption].
Qed.

Lemma Forall_normpath (s : pystr) : Forall P s -> Forall P (normpath s).
Proof.
  intros Hs. unfold normpath.
  destruct (is_empty s); [now repeat constructor|].
  match goal with |- Forall _ (if is_empty ?j then _ else _) =>
    assert (Hj : Forall P j); [|destruct (is_empty j); [now repeat constructor|exact Hj]]
  end.
  apply Forall_app. split.
  - apply Forall_forall. intros x Hx. apply repeat_spec in Hx. now subst.
  - apply Forall_join; [now repeat constructor|].
    apply Forall_normpath_comps; [constructor|now apply Forall_split].
Qed.

End PathPreservation.

(** ** The listing can be encoded *)

Lemma scalar_small (c : N) : c < 0x80 -> scalar c = true.
Proof. apply scalar_ascii. Qed.

Lemma hex_digit_ascii (n : N) : n < 16 -> hex_digit n < 0x80.
Proof. unfold hex_digit. destruct (n <? 10); lia. Qed.

Lemma quote_byte_ascii (b : byte) : Forall (fun c => c < 0x80) (quote_byte b).
Proof.
  unfold quote_byte. pose proof (to_N_lt b) as Hb.
  destruct (quote_safe (Byte.to_N b)) eqn:E.
  - constructor; [|constructor]. unfold quote_safe, SLASH in E.
    repeat match goal with
    | H : (_ || _) = true |- _ => apply orb_prop in H; destruct H
    end; bool_to_prop; lia.
  - repeat constructor; try (unfold PERCENT; lia).
    + apply hex_digit_ascii. apply N.Div0.div_lt_upper_bound. lia.
    + apply hex_digit_ascii. apply N.mod_lt. lia.
Qed.

Lemma percent_encoded_ascii (name : pystr) :
  Forall (fun c => c < 0x80) (percent_encoded name).
Proof.
  unfold percent_encoded, quote.
  destruct (encode_utf8 name) as [bs|]; cbn [bind]; [|constructor].
  induction bs as [|b bs IH]; [constructor|].
  cbn [flat_map]. apply Forall_app. split; [apply quote_byte_ascii|exact IH].
Qed.

Lemma literal_encodable (s : string) :
  header_safe (ulit s) = true -> encodable (ulit s).
Proof. intros H. now apply encodable_ascii, plain_ascii, header_safe_iff. Qed.

Lemma anchor_encodable (link label : pystr) :
  encodable link -> encodable label -> encodable (Server.anchor link label).
Proof.
  intros Hl Hb. unfold Server.anchor, encodable in *.
  repeat (apply Forall_app; split); try assumption;
    first [ now apply literal_encodable | now repeat constructor ].
Qed.

Lemma text_lines_encodable (ls : list pystr) :
  Forall encodable ls -> encodable (Server.text_lines ls).
Proof.
  induction 1 as [|l ls Hl Hls IH]; [constructor|].
  unfold Server.text_lines. cbn [flat_map].
  apply encodable_app. split; [|exact IH].
  apply encodable_app. split; [exact Hl|now repeat constructor].
Qed.

Lemma listing_head_encodable (requested_path : pystr) :
  encodable requested_path -> encodable (Server.listing_head requested_path).
Proof.
  intros Hr. unfold Server.listing_head.
  apply encodable_app. split; [now repeat constructor|].
  apply text_lines_encodable.
  repeat (apply Forall_cons;
          [first [ now apply literal_encodable
                 | apply encodable_app; split; [now apply literal_encodable|];
                   apply encodable_app; split;
                   [exact Hr|now apply literal_encodable] ]|]).
  apply Forall_nil.
Qed.

Lemma encodable_check (s : pystr) : forallb scalar s = true -> encodable s.
Proof.
  intros E. apply Forall_forall. intros c Hc.
  rewrite forallb_forall in E. now apply E.
Qed.

Lemma listing_tail_encodable : encodable Server.listing_tail.
Proof. now apply encodable_check. Qed.

Lemma entry_line_encodable w path requested_path name :
  encodable requested_path -> encodable name ->
  encodable (entry_line w path requested_path name).
Proof.
  intros Hr Hn. unfold entry_line.
  assert (Hh : encodable (replace1 BACKSLASH SLASH
                            (path_join requested_path (percent_encoded name)))).
  { apply Forall_replace1; [reflexivity|].
    apply Forall_path_join; [reflexivity|exact Hr|].
    apply encodable_ascii, percent_encoded_ascii. }
  destruct (isdir w (path_join path name)); apply anchor_encodable;
    try assumption; apply encodable_app; split; try assumption;
    now repeat constructor.
Qed.

Lemma parent_lines_encodable requested_path :
  encodable requested_path -> encodable (List.concat (parent_lines requested_path)).
Proof.
  intros Hr. unfold parent_lines.
  destruct (list_eqb requested_path [SLASH]); [constructor|].
  cbn [List.concat]. rewrite app_nil_r. apply anchor_encodable.
  - apply Forall_normpath; [reflexivity|reflexivity|].
    apply Forall_path_join; [reflexivity|exact Hr|now repeat constructor].
  - now apply literal_encodable.
Qed.

Lemma listing_text_encodable w path requested_path names :
  encodable requested_path -> Forall encodable names ->
  encodable (listing_text w path requested_path names).
Proof.
  intros Hr Hn. unfold listing_text.
  apply encodable_app. split; [now apply listing_head_encodable|].
  apply encodable_app. split; [now apply parent_lines_encodable|].
  apply encodable_app. split; [|apply listing_tail_encodable].
  assert (Hs : Forall encodable (sorted names)).
  { eapply Permutation_Forall; [apply sorted_perm|exact Hn]. }
  induction Hs as [|n ns Hn' Hns IH]; [constructor|].
  cbn [flat_map]. apply encodable_app. split; [|exact IH].
  now apply entry_line_encodable.
Qed.

(** The text of the listing, when the names can be encoded. *)
Lemma listing_html_text w path requested_path names :
  listdir w path = Ok names -> Forall encodable names ->
  Server.generate_dir_listing_html w path requested_path
  = Ok (listing_text w path requested_path names).
Proof.
  intros Hl Hn.
  assert (Hs : Forall encodable (sorted names)).
  { eapply Permutation_Forall; [apply sorted_perm|exact Hn]. }
  unfold Server.generate_dir_listing_html, listing_text. rewrite Hl. cbn [bind].
  rewrite listing_loop_lines by exact Hs. cbn [bind].
  unfold parent_lines.
  destruct (list_eqb requested_path [SLASH]); cbn [negb List.concat app].
  - now rewrite <- !app_assoc.
  - rewrite app_nil_r. now rewrite <- !app_assoc.
Qed.

Lemma listing_bytes w path requested_path names :
  listdir w path = Ok names -> Forall encodable names ->
  encodable requested_path ->
  exists body,
    encode_utf8 (listing_text w path requested_path names) = Ok body /\
    Server.generate_dir_listing w path requested_path = Ok body.
Proof.
  intros Hl Hn Hr.
  destruct (encode_utf8_encodable _
              (listing_text_encodable w path requested_path names Hr Hn))
    as (body & Hb).
  exists body. split; [exact Hb|].
  unfold Server.generate_dir_listing.
  now rewrite (listing_html_text _ _ _ _ Hl Hn).
Qed.

(** X6.  A GET request for a path ending in [/] that names a directory
    without [index.html] is answered with status 200, content type
    [text/html; charset=utf-8], and the UTF-8 encoding of the listing of
    that directory as body, provided the entry names can be encoded. *)
Theorem directory_listing_served w doc_root incoming raw version names :
  request_tokens incoming = [ulit "GET"; raw; version] ->
  contains [DOT; DOT] (unquote raw) = false ->
  endswith [SLASH] (unquote raw) = true ->
  fs w (path_join3 doc_root (lstrip1 SLASH (unquote raw)) (ulit "index.html"))
  = None ->
  fs w (path_join doc_root (lstrip1 SLASH (unquote raw)))
  = Some (DirNode names) ->
  Forall encodable names ->
  exists body,
    encode_utf8
      (listing_text w (path_join doc_root (lstrip1 SLASH (unquote raw)))
         (unquote raw) names) = Ok body /\
    Server.handle_request w doc_root incoming
    = Ok (Some (response_bytes w 200 (ulit "OK")
                  (ulit "text/html; charset=utf-8") body)).
Proof.
  intros Ht Hdd Hend Hidx Hdir Hn.
  assert (Hl : listdir w (path_join doc_root (lstrip1 SLASH (unquote raw)))
               = Ok names) by (unfold listdir; now rewrite Hdir).
  destruct (listing_bytes _ _ (unquote raw) _ Hl Hn
              (decoded_path_encodable _ _ _ _ Ht)) as (body & Hb & Hg).
  exists body. split; [exact Hb|].
  rewrite (handle_request_resolve _ _ _ _ _ Ht Hdd). cbv zeta.
  rewrite Hend. unfold path_exists, isdir. rewrite Hidx, Hdir.
  cbn [andb negb]. rewrite Hdir. rewrite Hg. cbn [bind].
  apply send_response_plain; plain_concrete.
Qed.

Lemma directory_listing_served_witness :
  let incoming := http_request "GET /sub/ HTTP/1.1" in
  let names := [ulit "b.png"; ulit "Z dir"; ulit "a.pdf"] in
  request_tokens incoming = [ulit "GET"; ulit "/sub/"; ulit "HTTP/1.1"] /\
  fs sample_world (ulit "www/sub/") = Some (DirNode names) /\
  Forall encodable names /\
  exists body,
    encode_utf8 (listing_text sample_world (ulit "www/sub/") (ulit "/sub/") names)
    = Ok body /\
    Server.handle_request sample_world (ulit "www") incoming
    = Ok (Some (response_bytes sample_world 200 (ulit "OK")
                  (ulit "text/html; charset=utf-8") body)).
Proof.
  cbv zeta.
  assert (He : Forall encodable [ulit "b.png"; ulit "Z dir"; ulit "a.pdf"]).
  { repeat (apply Forall_cons; [now apply encodable_check|]). apply Forall_nil. }
  split; [reflexivity|]. split; [reflexivity|]. split; [exact He|].
  apply (directory_listing_served sample_world (ulit "www")
           (http_request "GET /sub/ HTTP/1.1") (ulit "/sub/") (ulit "HTTP/1.1")
           [ulit "b.png"; ulit "Z dir"; ulit "a.pdf"]);
    try reflexivity. exact He.
Defined.

(** ** The handler does not raise *)






(** ** The status lines *)

Lemma encode_prefix (l1 rest : pystr) (b1 h : bytes) :
  encode_utf8 l1 = Ok b1 ->
  encode_utf8 (l1 ++ Server.CRLF ++ rest) = Ok h ->
  startswith (b1 ++ Server.CRLF_b) h = true.
Proof.
  intros H1. rewrite encode_utf8_app, H1. cbn [bind].
  rewrite encode_utf8_app.
  change (encode_utf8 Server.CRLF) with (Ok Server.CRLF_b). cbn [bind].
  destruct (encode_utf8 rest) as [t|]; cbn [bind]; [|discriminate].
  intros [= <-]. apply startswith_iff. exists t. now rewrite <- app_assoc.
Qed.

Lemma startswith_app_r {A} `{Eqb A} (p s t : list A) :
  startswith p s = true -> startswith p (s ++ t) = true.
Proof.
  intros E. apply startswith_iff in E as (r & ->).
  rewrite <- app_assoc. apply startswith_app.
Qed.

Lemma send_response_status w code text ctype body bs (b1 : bytes) :
  encode_utf8 (ulit "HTTP/1.1 " ++ str_of_Z code ++ ulit " " ++ text) = Ok b1 ->
  Server.send_response w code text ctype body = Ok (Some bs) ->
  startswith (b1 ++ Server.CRLF_b) bs = true.
Proof.
  intros H1. unfold Server.send_response, Server.response_headers.
  cbn [join].
  destruct (encode_utf8 (_ ++ Server.CRLF ++ _)) as [h|] eqn:Eh;
    cbn [bind]; [|discriminate].
  intros [= <-]. apply startswith_app_r.
  exact (encode_prefix _ _ _ _ H1 Eh).
Qed.

Lemma send_404_status w msg bs :
  Server.send_404 w msg = Ok (Some bs) -> known_status_line bs.
Proof.
  unfold Server.send_404.
  destruct (encode_utf8 _); cbn [bind]; [|discriminate].
  intros E. right. right. right. left.
  eapply send_response_status; [|exact E]; reflexivity.
Qed.

Lemma serve_file_status w p bs :
  Server.serve_file w p = Ok (Some bs) -> known_status_line bs.
Proof.
  unfold Server.serve_file.
  destruct (Server.classify w p); [|apply send_404_status].
  destruct (read_file w p); [|apply send_404_status].
  intros E. left. eapply send_response_status; [|exact E]; reflexivity.
Qed.

Lemma handler_status_line w doc_root incoming bs :
  Server.handle_request w doc_root incoming = Ok (Some bs) ->
  known_status_line bs.
Proof.
  unfold Server.handle_request.
  destruct (Server.decode_request incoming) as [request|]; [|discriminate].
  cbn [bind]. destruct (is_empty request); [discriminate|].
  destruct (Server.parse_request_line request) as [[method url_path]|];
    [|discriminate].
  destruct (negb (list_eqb method (ulit "GET"))).
  { intros E. do 4 right.
    eapply send_response_status; [|exact E]; reflexivity. }
  destruct (contains [DOT; DOT] url_path).
  { intros E. right. right. left.
    eapply send_response_status; [|exact E]; reflexivity. }
  cbv zeta.
  match goal with
  | |- match ?f with _ => _ end = _ -> _ => destruct f as [local_path|]
  end; [|apply send_404_status].
  destruct (isdir w local_path); [|apply serve_file_status].
  destruct (negb (endswith [SLASH] url_path)).
  - unfold Server.send_redirect, Server.redirect_headers. cbn [join].
    destruct (encode_utf8 _) as [h|] eqn:Eh; cbn [bind]; [|discriminate].
    intros [= <-]. right. left. apply startswith_app_r.
    eapply encode_prefix; [|exact Eh]. reflexivity.
  - destruct (Server.generate_dir_listing w local_path url_path);
      cbn [bind]; [|discriminate].
    intros E. left. eapply send_response_status; [|exact E]; reflexivity.
Qed.

(** X8.  Whatever the request and the file system, a response of the
    handler starts with one of five status lines: 200 OK, 301 Moved
    Permanently, 403 Forbidden, 404 Not Found or 501 Not Implemented. *)
Theorem response_status_lines w doc_root incoming bs :
  Server.handle_request w doc_root incoming = Ok (Some bs) ->
  known_status_line bs.
Proof. apply handler_status_line. Qed.

Lemma response_status_lines_witness :
  exists bs,
    Server.handle_request sample_world (ulit "www")
      (http_request "DELETE /index.html HTTP/1.1") = Ok (Some bs) /\
    known_status_line bs.
Proof.
  eexists. split; [vm_compute; reflexivity|].
  apply (response_status_lines sample_world (ulit "www")
           (http_request "DELETE /index.html HTTP/1.1")).
  vm_compute. reflexivity.
Defined.

(** ** The listing and the order of [os.listdir] *)

Lemma str_leb_refl (a : pystr) : str_leb a a = true.
Proof.
  destruct (str_leb a a) eqn:E; [reflexivity|].
  pose proof (str_leb_total _ _ E) as E'. congruence.
Qed.

(** A sorted list is determined by its elements. *)
Lemma sorted_list_unique (l l' : list pystr) :
  StronglySorted str_le l -> StronglySorted str_le l' ->
  Permutation l l' -> l = l'.
Proof.
  intros Hl. revert l'.
  induction Hl as [|x l Hl IH Hx]; intros l' Hl' Hp.
  - apply Permutation_nil in Hp. now subst.
  - destruct Hl' as [|y l' Hl' Hy].
    + apply Permutation_sym, Permutation_nil in Hp. discriminate.
    + assert (Hxy : str_leb x y = true).
      { assert (Hin : In y (x :: l))
          by (eapply Permutation_in; [apply Permutation_sym, Hp|now left]).
        destruct Hin as [->|Hin]; [apply str_leb_refl|].
        rewrite Forall_forall in Hx. now apply Hx. }
      assert (Hyx : str_leb y x = true).
      { assert (Hin : In x (y :: l'))
          by (eapply Permutation_in; [exact Hp|now left]).
        destruct Hin as [->|Hin]; [apply str_leb_refl|].
        rewrite Forall_forall in Hy. now apply Hy. }
      pose proof (str_leb_antisym _ _ Hxy Hyx) as ->.
      f_equal. apply IH; [exact Hl'|].
      now apply Permutation_cons_inv in Hp.
Qed.

Lemma sorted_permutation (l l' : list pystr) :
  Permutation l l' -> sorted l = sorted l'.
Proof.
  intros Hp. apply sorted_list_unique; try apply sorted_StronglySorted.
  rewrite <- (sorted_perm l), <- (sorted_perm l'). exact Hp.
Qed.

Lemma listing_loop_same_isdir w w' path requested_path items html :
  (forall p, isdir w p = isdir w' p) ->
  Server.listing_loop w path requested_path items html
  = Server.listing_loop w' path requested_path items html.
Proof.
  intros Hd. revert html.
  induction items as [|item items IH]; intros html; [reflexivity|].
  cbn [Server.listing_loop]. unfold Server.listing_item.
  rewrite Hd. destruct (quote item); cbn [bind]; [|reflexivity].
  destruct (isdir w' (path_join path item)); cbn [bind]; apply IH.
Qed.

(** X9.  The listing does not depend on the order in which [os.listdir]
    reports the entries: two file systems that agree on which paths are
    directories and report the same names for a directory, in any order,
    give the same listing (or fail alike). *)
Theorem listing_order_independent w w' path requested_path names names' :
  listdir w path = Ok names ->
  listdir w' path = Ok names' ->
  Permutation names names' ->
  (forall p, isdir w p = isdir w' p) ->
  Server.generate_dir_listing w path requested_path
  = Server.generate_dir_listing w' path requested_path.
Proof.
  intros Hl Hl' Hp Hd.
  unfold Server.generate_dir_listing, Server.generate_dir_listing_html.
  rewrite Hl, Hl'. cbn [bind]. rewrite (sorted_permutation _ _ Hp).
  now rewrite (listing_loop_same_isdir w w' _ _ _ _ Hd).
Qed.

Lemma listing_order_independent_witness :
  let names := [ulit "b.png"; ulit "Z dir"; ulit "a.pdf"] in
  listdir sample_world (ulit "www/sub/") = Ok names /\
  listdir sample_world_reordered (ulit "www/sub/") = Ok (rev names) /\
  Permutation names (rev names) /\
  Server.generate_dir_listing sample_world (ulit "www/sub/") (ulit "/sub/")
  = Server.generate_dir_listing sample_world_reordered (ulit "www/sub/")
      (ulit "/sub/").
Proof.
  cbv zeta. split; [reflexivity|]. split; [reflexivity|].
  split; [apply Permutation_rev|].
  apply (listing_order_independent sample_world sample_world_reordered
           (ulit "www/sub/") (ulit "/sub/")
           [ulit "b.png"; ulit "Z dir"; ulit "a.pdf"]
           (rev [ulit "b.png"; ulit "Z dir"; ulit "a.pdf"]));
    [reflexivity|reflexivity|apply Permutation_rev|].
  intros p. unfold isdir, sample_world_reordered, sample_world, fs.
  destruct (list_eqb p (ulit "www/sub/")) eqn:E; [|reflexivity].
  apply list_eqb_eq in E. subst p. reflexivity.
Defined.

(** * The client's driver *)

(** ** The request as the server reads it *)

Lemma utf8_scan_ascii_app (a r : bytes) :
  Forall (fun b => Byte.to_N b < 0x80) a ->
  utf8_scan (a ++ r) = map (fun b => Cp (Byte.to_N b)) a ++ utf8_scan r.
Proof.
  induction 1 as [|b a Hb Ha IH]; [reflexivity|].
  cbn [app map]. rewrite <- IH.
  cbn [utf8_scan]. cbv zeta. apply N.ltb_lt in Hb. now rewrite Hb.
Qed.

Lemma handle_events_ignore_app (a : bytes) (es : list utf8_event) :
  exists s,
    handle_events Ignore (map (fun b => Cp (Byte.to_N b)) a ++ es)
    = Ok (map Byte.to_N a ++ s).
Proof.
  induction a as [|b a IH]; cbn [map app handle_events].
  - assert (H : forall es, exists s, handle_events Ignore es = Ok s).
    { clear. induction es as [|[c|] es IH]; cbn [handle_events].
      - now exists [].
      - destruct IH as (s & ->). now exists (c :: s).
      - exact IH. }
    apply H.
  - destruct IH as (s & ->). cbn [bind]. now exists s.
Qed.

(** The octets of a text that begins with an ASCII line. *)
Lemma encode_ascii_line (l rest : pystr) (req : bytes) :
  Forall (fun c => c < 0x80) l ->
  encode_utf8 (l ++ LF :: rest) = Ok req ->
  exists t, req = ascii_bytes l ++ x0a :: t.
Proof.
  intros Hl. rewrite encode_utf8_app, (encode_utf8_ascii l Hl). cbn [bind].
  cbn [encode_utf8].
  change (utf8_encode_cp LF) with (Ok [x0a]). cbn [bind].
  destruct (encode_utf8 rest) as [t|]; cbn [bind]; [|discriminate].
  intros [= <-]. now exists t.
Qed.

(** What the server decodes when the first line is ASCII and short. *)
Lemma decode_request_line (l : pystr) (t : bytes) :
  Forall (fun c => c < 0x80) l -> (List.length l < 4096)%nat ->
  exists s,
    Server.decode_request (ascii_bytes l ++ x0a :: t) = Ok (l ++ LF :: s).
Proof.
  intros Hl Hlen. unfold Server.decode_request, Server.recv, decode_utf8.
  rewrite firstn_app, ascii_bytes_length.
  rewrite firstn_all2 by (rewrite ascii_bytes_length; lia).
  destruct (4096 - List.length l)%nat as [|k] eqn:Ek; [lia|].
  cbn [firstn].
  change (ascii_bytes l ++ x0a :: firstn k t)
    with (ascii_bytes l ++ [x0a] ++ firstn k t).
  rewrite app_assoc.
  rewrite utf8_scan_ascii_app.
  - destruct (handle_events_ignore_app (ascii_bytes l ++ [x0a])
                (utf8_scan (firstn k t))) as (s & ->).
    exists s. rewrite map_app, map_to_N_ascii_bytes.
    + now rewrite <- app_assoc.
    + eapply Forall_impl; [|exact Hl]. intros c Hc. cbv beta in *. lia.
  - apply Forall_app. split.
    + unfold ascii_bytes. apply Forall_map.
      eapply Forall_impl; [|exact Hl]. intros c Hc. cbv beta in *.
      rewrite to_N_byte_of_N; lia.
    + repeat constructor.
Qed.

Lemma first_line (l s : pystr) :
  Forall (fun c => c <> LF) l -> hd [] (split [LF] (l ++ LF :: s)) = l.
Proof.
  intros Hl. unfold split.
  change (l ++ LF :: s) with (l ++ [LF] ++ s).
  now rewrite (split_go_piece LF [] [] l s Hl).
Qed.

Lemma split_ws_go_end (d cur : pystr) :
  Forall (fun c => isspace c = false) d ->
  split_ws_go cur d = flush_word (rev d ++ cur).
Proof.
  intros Hd. revert cur. induction Hd as [|c d Hc Hd IH]; intros cur.
  - reflexivity.
  - cbn [split_ws_go]. rewrite Hc, IH. cbn [rev]. now rewrite <- app_assoc.
Qed.

Lemma strip_framed (c d sp : N) (m : pystr) :
  isspace c = false -> isspace d = false -> isspace sp = true ->
  strip (c :: m ++ [d] ++ [sp]) = c :: m ++ [d].
Proof.
  intros Hc Hd Hsp. unfold strip. cbn [lstrip_ws]. rewrite Hc.
  replace (rev (c :: m ++ [d] ++ [sp])) with (sp :: d :: rev (c :: m))
    by (cbn [rev]; rewrite !rev_app_distr; reflexivity).
  cbn [lstrip_ws]. rewrite Hsp, Hd.
  change (rev (d :: rev (c :: m))) with (rev (rev (c :: m)) ++ [d]).
  now rewrite rev_involutive.
Qed.

(** The words of a request line written by the client. *)
Lemma request_line_words (path : pystr) :
  path <> [] -> Forall (fun c => isspace c = false) path ->
  split_ws (strip (ulit "GET " ++ path ++ ulit " HTTP/1.1" ++ [CR]))
  = [ulit "GET"; path; ulit "HTTP/1.1"].
Proof.
  intros Hne Hp.
  assert (Hs : strip (ulit "GET " ++ path ++ ulit " HTTP/1.1" ++ [CR])
               = ulit "GET " ++ path ++ ulit " HTTP/1.1").
  { replace (ulit "GET " ++ path ++ ulit " HTTP/1.1" ++ [CR])
      with (71 :: (ulit "ET " ++ path ++ ulit " HTTP/1.") ++ [49] ++ [CR])
      by (rewrite <- !app_assoc; reflexivity).
    rewrite strip_framed by reflexivity.
    rewrite <- !app_assoc. reflexivity. }
  rewrite Hs. unfold split_ws.
  change (ulit "GET " ++ path ++ ulit " HTTP/1.1")
    with (ulit "GET" ++ 32 :: (path ++ 32 :: ulit "HTTP/1.1")).
  rewrite split_ws_go_word; [|now apply no_space_check|reflexivity].
  rewrite split_ws_go_word; [|exact Hp|reflexivity].
  rewrite split_ws_go_end by now apply no_space_check.
  rewrite !flush_word_rev by (assumption || discriminate).
  reflexivity.
Qed.

Lemma tokens_of_request host port path request :
  wire_path path ->
  encode_utf8 (Driver.request_text host port path) = Ok request ->
  request_tokens request = [ulit "GET"; path; ulit "HTTP/1.1"].
Proof.
  intros (Hne & Hp & Hlen) Henc.
  set (l := ulit "GET " ++ path ++ ulit " HTTP/1.1" ++ [CR]).
  assert (Hascii : Forall (fun c => c < 0x80) l).
  { unfold l. apply Forall_app. split; [now apply plain_ascii, header_safe_iff|].
    apply Forall_app. split.
    - eapply Forall_impl; [|exact Hp]. now intros c [Hc _].
    - apply Forall_forall. intros c Hc. apply N.ltb_lt. revert c Hc.
      apply forallb_forall. reflexivity. }
  assert (Hnolf : Forall (fun c => c <> LF) l).
  { unfold l. apply Forall_app. split.
    { apply Forall_forall. intros c Hc E. subst c. revert Hc.
      cbn. unfold LF. intuition discriminate. }
    apply Forall_app. split.
    - eapply Forall_impl; [|exact Hp]. intros c [_ Hc] E. subst c.
      discriminate.
    - apply Forall_forall. intros c Hc E. subst c. revert Hc.
      cbn. unfold LF, CR. intuition discriminate. }
  assert (Hl : (List.length l < 4096)%nat).
  { unfold l. rewrite !length_app. cbn [List.length]. 
    change (List.length (ulit "GET ")) with 4%nat.
    change (List.length (ulit " HTTP/1.1")) with 9%nat. lia. }
  assert (Hreq : Driver.request_text host port path
                 = l ++ LF :: (ulit "Host: " ++ host ++ ulit ":"
                               ++ str_of_Z port ++ [CR; LF]
                               ++ ulit "Connection: close" ++ [CR; LF; CR; LF])).
  { unfold Driver.request_text, l. rewrite <- !app_assoc. reflexivity. }
  rewrite Hreq in Henc.
  destruct (encode_ascii_line _ _ _ Hascii Henc) as (t & ->).
  destruct (decode_request_line l t Hascii Hl) as (s & Hd).
  unfold request_tokens. rewrite Hd, (first_line _ _ Hnolf).
  apply request_line_words; [exact Hne|].
  eapply Forall_impl; [|exact Hp]. now intros c [_ Hc].
Qed.

(** X10.  The server reads the request that the client writes for a path
    as a GET request for that very path: for a path that is a non-empty
    word of ASCII characters other than white space, at most 4000 long,
    the request line that the handler takes apart consists of [GET], the
    path and [HTTP/1.1], whatever the host name and the port are. *)
Theorem request_understood host port path request :
  wire_path path ->
  encode_utf8 (Driver.request_text host port path) = Ok request ->
  request_tokens request = [ulit "GET"; path; ulit "HTTP/1.1"].
Proof. apply tokens_of_request. Qed.

Lemma request_understood_witness :
  exists request,
    wire_path (ulit "/sub/a.pdf?x=1") /\
    encode_utf8 (Driver.request_text (ulit "localhost") 8080 (ulit "/sub/a.pdf?x=1"))
    = Ok request /\
    request_tokens request
    = [ulit "GET"; ulit "/sub/a.pdf?x=1"; ulit "HTTP/1.1"].
Proof.
  assert (Hw : wire_path (ulit "/sub/a.pdf?x=1")).
  { split; [discriminate|]. split; [|cbn; lia].
    apply Forall_forall. intros c Hc.
    assert (E : forallb (fun c => (c <? 0x80) && negb (isspace c))
                  (ulit "/sub/a.pdf?x=1") = true) by reflexivity.
    rewrite forallb_forall in E. specialize (E c Hc).
    apply andb_prop in E as [E1 E2]. apply N.ltb_lt in E1.
    apply negb_true_iff in E2. now split. }
  eexists. split; [exact Hw|]. split; [vm_compute; reflexivity|].
  apply (request_understood (ulit "localhost") 8080 (ulit "/sub/a.pdf?x=1"));
    [exact Hw|vm_compute; reflexivity].
Defined.

(** ** Fetching a file *)

(** The receive loop puts non-empty chunks together. *)
Lemma recv_loop_concat (chunks : list bytes) :
  Forall (fun c => c <> []) chunks ->
  Driver.recv_loop chunks = List.concat chunks.
Proof.
  induction 1 as [|c cs Hc Hcs IH]; [reflexivity|].
  cbn [Driver.recv_loop List.concat]. destruct c; [easy|].
  cbn [is_empty]. now rewrite IH.
Qed.

Lemma response_bytes_nonempty w code text ctype body :
  is_empty (response_bytes w code text ctype body) = false.
Proof. reflexivity. Qed.

Lemma http_get_received_bytes net host port path request chunks data r :
  encode_utf8 (Driver.request_text host port path) = Ok request ->
  net request = Driver.Received chunks ->
  Forall (fun c => c <> []) chunks ->
  List.concat chunks = data ->
  is_empty data = false ->
  Client.parse_response data = Ok r ->
  Driver.http_get net host port path = ([], Ok (Some r)).
Proof.
  intros Henc Hnet Hch Hcat Hne Hp.
  unfold Driver.http_get. rewrite Henc, Hnet.
  rewrite (recv_loop_concat _ Hch), Hcat, Hne, Hp. reflexivity.
Qed.

Lemma http_get_file w doc_root net host port path request chunks body m :
  wire_path path ->
  encode_utf8 (Driver.request_text host port path) = Ok request ->
  contains [DOT; DOT] (unquote path) = false ->
  fs w (if endswith [SLASH] (unquote path)
        then path_join3 doc_root (lstrip1 SLASH (unquote path)) (ulit "index.html")
        else path_join doc_root (lstrip1 SLASH (unquote path)))
  = Some (FileNode (Some body)) ->
  Server.classify w
    (if endswith [SLASH] (unquote path)
     then path_join3 doc_root (lstrip1 SLASH (unquote path)) (ulit "index.html")
     else path_join doc_root (lstrip1 SLASH (unquote path))) = Some m ->
  net request = Driver.Received chunks ->
  Forall (fun c => c <> []) chunks ->
  Server.handle_request w doc_root request = Ok (Some (List.concat chunks)) ->
  Driver.http_get net host port path
  = ([], Ok (Some (Server.response_headers w 200 (ulit "OK") m body, body))).
Proof.
  intros Hw Henc Hdd Hfs Hc Hnet Hch Hresp.
  pose proof (tokens_of_request _ _ _ _ Hw Henc) as Ht.
  destruct (file_served_verbatim_core w doc_root request path (ulit "HTTP/1.1")
              body m Ht Hdd Hfs Hc) as (Hh & Hp).
  rewrite Hh in Hresp. injection Hresp as Hcat. symmetry in Hcat.
  exact (http_get_received_bytes _ _ _ _ _ _ _ _ Henc Hnet Hch Hcat
           (response_bytes_nonempty _ _ _ _ _) Hp).
Qed.

(** X11.  A client that asks the server for a file gets the file: when the
    path resolves to a readable file whose type passes the allow-list, and
    the response of the handler reaches the client cut into non-empty
    chunks in any way, [http_get] prints nothing and returns the header
    lines and a body that is octet for octet the file. *)
Theorem fetch_returns_file w doc_root net host port path request chunks body m :
  wire_path path ->
  encode_utf8 (Driver.request_text host port path) = Ok request ->
  contains [DOT; DOT] (unquote path) = false ->
  let local_path :=
    if endswith [SLASH] (unquote path)
    then path_join3 doc_root (lstrip1 SLASH (unquote path)) (ulit "index.html")
    else path_join doc_root (lstrip1 SLASH (unquote path)) in
  fs w local_path = Some (FileNode (Some body)) ->
  Server.classify w local_path = Some m ->
  net request = Driver.Received chunks ->
  Forall (fun c => c <> []) chunks ->
  Server.handle_request w doc_root request = Ok (Some (List.concat chunks)) ->
  Driver.http_get net host port path
  = ([], Ok (Some (Server.response_headers w 200 (ulit "OK") m body, body))).
Proof.
  intros Hw Henc Hdd local_path Hfs Hc Hnet Hch Hresp.
  now apply (http_get_file w doc_root net host port path request chunks body m).
Qed.

Lemma sample_path_wire : wire_path (ulit "/sub/a.pdf").
Proof.
  split; [discriminate|]. split; [|cbn; lia].
  apply Forall_forall. intros c Hc.
  assert (E : forallb (fun c => (c <? 0x80) && negb (isspace c))
                (ulit "/sub/a.pdf") = true) by reflexivity.
  rewrite forallb_forall in E. specialize (E c Hc).
  apply andb_prop in E as [E1 E2]. apply N.ltb_lt in E1.
  apply negb_true_iff in E2. now split.
Qed.

Lemma fetch_returns_file_witness :
  exists request,
    encode_utf8 (Driver.request_text (ulit "localhost") 8080 (ulit "/sub/a.pdf"))
    = Ok request /\
    Driver.http_get (server_peer sample_world (ulit "www")) (ulit "localhost")
      8080 (ulit "/sub/a.pdf")
    = ([], Ok (Some (Server.response_headers sample_world 200 (ulit "OK")
                       (ulit "application/pdf") (blit "%PDF"), blit "%PDF"))).
Proof.
  eexists. split; [vm_compute; reflexivity|].
  eapply (fetch_returns_file sample_world (ulit "www")
            (server_peer sample_world (ulit "www")) (ulit "localhost") 8080
            (ulit "/sub/a.pdf") _
            [response_bytes sample_world 200 (ulit "OK")
               (ulit "application/pdf") (blit "%PDF")]
            (blit "%PDF") (ulit "application/pdf")).
  - exact sample_path_wire.
  - vm_compute. reflexivity.
  - reflexivity.
  - reflexivity.
  - reflexivity.
  - vm_compute. reflexivity.
  - repeat constructor. discriminate.
  - vm_compute. reflexivity.
Defined.

(** ** Saving what was fetched *)






(** ** The client's [main] *)

(** *** The status line of what was received *)




(** *** Sequencing *)

Lemma io_bind_emit {B} (e : Driver.event) (k : unit -> Driver.io B) :
  Driver.io_bind (Driver.emit e) k = (e :: fst (k tt), snd (k tt)).
Proof. reflexivity. Qed.

Lemma io_bind_pure {A B} (a : A) (k : A -> Driver.io B) :
  Driver.io_bind ([], Ok a) k = k a.
Proof. unfold Driver.io_bind. cbn [fst snd app]. now destruct (k a). Qed.

Lemma io_bind_ret {A B} (a : A) (k : A -> Driver.io B) :
  Driver.io_bind (Driver.ret a) k = k a.
Proof. apply io_bind_pure. Qed.

Ltac io_simpl :=
  repeat (rewrite ?io_bind_emit, ?io_bind_pure, ?io_bind_ret;
          cbv beta; cbn [fst snd]).

(** *** What [main] does with the status line *)

(** A status other than 200 is reported with the first word of its reason,
    and the body, when there is one, is printed. *)
Lemma main_error_status env w net host port url_path save_directory
    status_line lines body v code_s code reason more :
  Driver.http_get net host port
    (if negb (startswith [SLASH] url_path) then [SLASH] ++ url_path
     else url_path)
  = ([], Ok (Some (status_line :: lines, body))) ->
  split_ws status_line = v :: code_s :: reason :: more ->
  int_of_str code_s = Ok code ->
  code <> 200%Z ->
  Driver.main env w net host port url_path save_directory
  = (Driver.Print (ulit "Requesting: http://" ++ host ++ ulit ":"
                   ++ str_of_Z port
                   ++ (if negb (startswith [SLASH] url_path)
                       then [SLASH] ++ url_path else url_path))
     :: Driver.Print (ulit "Server responded with status code: "
                      ++ str_of_Z code ++ ulit " " ++ reason)
     :: (if is_empty body then []
         else [Driver.Print ([LF] ++ ulit "--- Response Body ---");
               Driver.Print (map Byte.to_N body)]),
     Ok tt).
Proof.
  intros Hget Hsplit Hint Hcode. unfold Driver.main. cbv zeta.
  unfold pystr, bytes in *. rewrite Hget. io_simpl.
  rewrite Hsplit, Hint. apply Z.eqb_neq in Hcode. rewrite Hcode. cbn [negb].
  io_simpl. destruct body; cbn [is_empty negb]; io_simpl; reflexivity.
Qed.

(** With status 200 the content type decides. *)
Lemma main_ok_status env w net host port url_path save_directory
    status_line lines body v code_s more :
  Driver.http_get net host port
    (if negb (startswith [SLASH] url_path) then [SLASH] ++ url_path
     else url_path)
  = ([], Ok (Some (status_line :: lines, body))) ->
  split_ws status_line = v :: code_s :: more ->
  int_of_str code_s = Ok 200%Z ->
  let path := if negb (startswith [SLASH] url_path) then [SLASH] ++ url_path
              else url_path in
  let requesting :=
    Driver.Print (ulit "Requesting: http://" ++ host ++ ulit ":"
                  ++ str_of_Z port ++ path) in
  match Client.get_header_value w (status_line :: lines) (ulit "Content-Type")
  with
  | None =>
      Driver.main env w net host port url_path save_directory
      = ([requesting;
          Driver.Print (ulit "Warning: Content-Type header missing or malformed. Treating as HTML.");
          Driver.Print ([LF] ++ ulit "--- HTML Response Body ---");
          Driver.Print (Driver.decode_body body)], Ok tt)
  | Some content_type =>
      if contains (ulit "text/html") content_type then
        Driver.main env w net host port url_path save_directory
        = ([requesting;
            Driver.Print ([LF] ++ ulit "--- HTML Response Body ---");
            Driver.Print (Driver.decode_body body)], Ok tt)
      else if contains (ulit "image/png") content_type
              || contains (ulit "application/pdf") content_type then
        Driver.main env w net host port url_path save_directory
        = (requesting
           :: Driver.Print (ulit "File type: " ++ content_type
                            ++ ulit ". Saving to directory: " ++ save_directory)
           :: fst (Driver.save_file env save_directory path body),
           snd (Driver.save_file env save_directory path body))
      else
        Driver.main env w net host port url_path save_directory
        = ([requesting;
            Driver.Print (ulit "Unknown Content-Type: " ++ content_type
                          ++ ulit ". Printing body as text.");
            Driver.Print ([LF] ++ ulit "--- Unknown Response Body ---");
            Driver.Print (Driver.decode_body body)], Ok tt)
  end.
Proof.
  intros Hget Hsplit Hint. cbv zeta. unfold Driver.main. cbv zeta.
  unfold pystr, bytes in *. rewrite Hget. io_simpl.
  rewrite Hsplit, Hint. cbn [Z.eqb Pos.eqb negb].
  destruct (Client.get_header_value w _ _) as [content_type|]; io_simpl.
  - destruct (contains (ulit "text/html") content_type);
      [io_simpl; reflexivity|].
    destruct (contains (ulit "image/png") content_type
              || contains (ulit "application/pdf") content_type);
      io_simpl; reflexivity.
  - reflexivity.
Qed.

(** *** The client does not raise *)


Lemma request_text_encodable host port path :
  encodable host -> encodable path ->
  exists request, encode_utf8 (Driver.request_text host port path) = Ok request.
Proof.
  intros Hh Hp. apply encode_utf8_encodable. unfold Driver.request_text.
  assert (Hz : encodable (str_of_Z port)).
  { apply encodable_ascii, plain_ascii.
    eapply Forall_impl; [apply numeral_plain|apply str_of_Z_numeral]. }
  repeat (apply encodable_app; split);
    try assumption; now apply encodable_check.
Qed.






(** *** A run of the client against the server *)

Lemma wire_path_check (p : pystr) :
  negb (is_empty p)
  && forallb (fun c => (c <? 0x80) && negb (isspace c)) p
  && (List.length p <=? 4000)%nat = true ->
  wire_path p.
Proof.
  intros E. apply andb_prop in E as [E E3]. apply andb_prop in E as [E1 E2].
  split; [now destruct p|]. split; [|now apply Nat.leb_le].
  apply Forall_forall. intros c Hc. rewrite forallb_forall in E2.
  specialize (E2 c Hc). apply andb_prop in E2 as [Ha Hb].
  apply N.ltb_lt in Ha. apply negb_true_iff in Hb. now split.
Qed.

Lemma wire_path_encodable (p : pystr) : wire_path p -> encodable p.
Proof.
  intros (_ & Hp & _). apply encodable_ascii.
  eapply Forall_impl; [|exact Hp]. now intros c [Hc _].
Qed.

(** What [http_get] returns when the handler answers through
    [send_response]. *)
Lemma get_from_server w doc_root host port path request code text ctype body :
  encode_utf8 (Driver.request_text host port path) = Ok request ->
  Server.handle_request w doc_root request
  = Ok (Some (response_bytes w code text ctype body)) ->
  Forall plain text -> Forall plain ctype ->
  Driver.http_get (server_peer w doc_root) host port path
  = ([], Ok (Some (Server.response_headers w code text ctype body, body))).
Proof.
  intros Henc Hh Ht Hc.
  apply (http_get_received_bytes (server_peer w doc_root) host port path
           request [response_bytes w code text ctype body]
           (response_bytes w code text ctype body)).
  - exact Henc.
  - unfold server_peer. now rewrite Hh.
  - repeat constructor. discriminate.
  - cbn [List.concat]. apply app_nil_r.
  - reflexivity.
  - unfold response_bytes. apply parse_wire.
    + discriminate.
    + unfold Server.response_headers, Server.date_header.
      repeat (apply Forall_cons; [discriminate|]). apply Forall_nil.
    + now apply response_headers_plain.
Qed.

Lemma get_file_from_server w doc_root host port path body m :
  wire_path path -> encodable host ->
  contains [DOT; DOT] (unquote path) = false ->
  fs w (if endswith [SLASH] (unquote path)
        then path_join3 doc_root (lstrip1 SLASH (unquote path)) (ulit "index.html")
        else path_join doc_root (lstrip1 SLASH (unquote path)))
  = Some (FileNode (Some body)) ->
  Server.classify w
    (if endswith [SLASH] (unquote path)
     then path_join3 doc_root (lstrip1 SLASH (unquote path)) (ulit "index.html")
     else path_join doc_root (lstrip1 SLASH (unquote path))) = Some m ->
  Driver.http_get (server_peer w doc_root) host port path
  = ([], Ok (Some (Server.response_headers w 200 (ulit "OK") m body, body))).
Proof.
  intros Hw Hh Hdd Hfs Hc.
  destruct (request_text_encodable host port path Hh (wire_path_encodable _ Hw))
    as (request & Henc).
  pose proof (tokens_of_request _ _ _ _ Hw Henc) as Ht.
  destruct (file_served_verbatim_core w doc_root request path (ulit "HTTP/1.1")
              body m Ht Hdd Hfs Hc) as (Hh' & _).
  destruct (classify_plain _ _ _ Hc) as [Hm _]. apply header_safe_iff in Hm.
  apply (get_from_server w doc_root host port path request _ _ _ _ Henc Hh');
    [plain_concrete|exact Hm].
Qed.



(** X15.  A page that the server has is shown, not saved.  For a path that
    resolves to a readable file whose content type is [text/html], a run of
    [main] against the handler prints the body as text and touches no file
    and no directory, whatever the environment allows. *)
Theorem page_printed env w doc_root host port url_path save_directory body :
  let path := if negb (startswith [SLASH] url_path) then [SLASH] ++ url_path
              else url_path in
  let local_path :=
    if endswith [SLASH] (unquote path)
    then path_join3 doc_root (lstrip1 SLASH (unquote path)) (ulit "index.html")
    else path_join doc_root (lstrip1 SLASH (unquote path)) in
  wire_path path -> encodable host ->
  contains [DOT; DOT] (unquote path) = false ->
  fs w local_path = Some (FileNode (Some body)) ->
  Server.classify w local_path = Some (ulit "text/html") ->
  Driver.main env w (server_peer w doc_root) host port url_path save_directory
  = ([Driver.Print (ulit "Requesting: http://" ++ host ++ ulit ":"
                    ++ str_of_Z port ++ path);
      Driver.Print ([LF] ++ ulit "--- HTML Response Body ---");
      Driver.Print (Driver.decode_body body)],
     Ok tt).
Proof.
  intros path local_path Hw Hh Hdd Hfs Hc.
  pose proof (get_file_from_server w doc_root host port path body _
                Hw Hh Hdd Hfs Hc) as Hget.
  unfold Server.response_headers in Hget.
  pose proof (main_ok_status env w (server_peer w doc_root) host port url_path
                save_directory _ _ _ _ _ _ Hget eq_refl eq_refl) as Hmain.
  cbv zeta in Hmain.
  destruct (header_lookups w 200 (ulit "OK") (ulit "text/html") body)
    as [Hct _].
  unfold Server.response_headers in Hct.
  unfold pystr, bytes in *. rewrite Hct in Hmain.
  exact Hmain.
Qed.

Lemma page_printed_witness :
  Driver.main sample_env sample_world (server_peer sample_world (ulit "www"))
    (ulit "localhost") 8080 (ulit "/") (ulit "downloads")
  = ([Driver.Print (ulit "Requesting: http://localhost:8080/");
      Driver.Print ([LF] ++ ulit "--- HTML Response Body ---");
      Driver.Print (ulit "<html>hi</html>")],
     Ok tt).
Proof.
  apply (page_printed sample_env sample_world (ulit "www") (ulit "localhost")
           8080 (ulit "/") (ulit "downloads") (blit "<html>hi</html>")).
  - now apply wire_path_check.
  - now apply encodable_check.
  - reflexivity.
  - reflexivity.
  - reflexivity.
Defined.

(** X16.  What the server does not have is reported, not saved.  For a
    path under which the file system has nothing, a run of [main] against
    the handler prints the status code 404 followed by the first word of
    the reason only, [Not], and then the body of the response, the page of
    [send_404]; it touches no file and no directory. *)
Theorem missing_resource_reported env w doc_root host port url_path
    save_directory :
  let path := if negb (startswith [SLASH] url_path) then [SLASH] ++ url_path
              else url_path in
  wire_path path -> encodable host ->
  contains [DOT; DOT] (unquote path) = false ->
  path_exists w
    (if endswith [SLASH] (unquote path)
     then path_join3 doc_root (lstrip1 SLASH (unquote path)) (ulit "index.html")
     else path_join doc_root (lstrip1 SLASH (unquote path))) = false ->
  isdir w (path_join doc_root (lstrip1 SLASH (unquote path))) = false ->
  Driver.main env w (server_peer w doc_root) host port url_path save_directory
  = ([Driver.Print (ulit "Requesting: http://" ++ host ++ ulit ":"
                    ++ str_of_Z port ++ path);
      Driver.Print (ulit "Server responded with status code: 404 Not");
      Driver.Print ([LF] ++ ulit "--- Response Body ---");
      Driver.Print (ulit "<html><body><h1>404 Not Found</h1><p>The requested file or resource was not found.</p></body></html>")],
     Ok tt).
Proof.
  intros path Hw Hh Hdd Hex Hdir.
  destruct (request_text_encodable host port path Hh (wire_path_encodable _ Hw))
    as (request & Henc).
  pose proof (tokens_of_request _ _ _ _ Hw Henc) as Ht.
  pose proof (handle_request_missing w doc_root request path _ Ht Hdd Hex Hdir)
    as Hresp.
  unfold not_found_response in Hresp.
  assert (Hget := get_from_server w doc_root host port path request _ _ _ _
                    Henc Hresp ltac:(plain_concrete) ltac:(plain_concrete)).
  unfold Server.response_headers in Hget.
  exact (main_error_status env w (server_peer w doc_root) host port url_path
           save_directory _ _ _ (ulit "HTTP/1.1") (ulit "404") 404%Z
           (ulit "Not") [ulit "Found"] Hget eq_refl eq_refl
           ltac:(discriminate)).
Qed.

Lemma missing_resource_reported_witness :
  Driver.main sample_env sample_world (server_peer sample_world (ulit "www"))
    (ulit "localhost") 8080 (ulit "/sub/c.png") (ulit "downloads")
  = ([Driver.Print (ulit "Requesting: http://localhost:8080/sub/c.png");
      Driver.Print (ulit "Server responded with status code: 404 Not");
      Driver.Print ([LF] ++ ulit "--- Response Body ---");
      Driver.Print (ulit "<html><body><h1>404 Not Found</h1><p>The requested file or resource was not found.</p></body></html>")],
     Ok tt).
Proof.
  apply (missing_resource_reported sample_env sample_world (ulit "www")
           (ulit "localhost") 8080 (ulit "/sub/c.png") (ulit "downloads")).
  - now apply wire_path_check.
  - now apply encodable_check.
  - reflexivity.
  - reflexivity.
  - reflexivity.
Defined.

(** The redirect as the client reads it, for a path of plain ASCII. *)
Lemma get_redirect_from_server w doc_root host port path request :
  encode_utf8 (Driver.request_text host port path) = Ok request ->
  request_tokens request = [ulit "GET"; path; ulit "HTTP/1.1"] ->
  contains [DOT; DOT] (unquote path) = false ->
  endswith [SLASH] (unquote path) = false ->
  isdir w (path_join doc_root (lstrip1 SLASH (unquote path))) = true ->
  Forall plain (unquote path) ->
  Driver.http_get (server_peer w doc_root) host port path
  = ([], Ok (Some (Server.redirect_headers w (unquote path ++ [SLASH]), []))).
Proof.
  intros Henc Ht Hdd Hend Hdir Hpl.
  assert (Hlines : Forall (Forall plain)
                     (Server.redirect_headers w (unquote path ++ [SLASH]))).
  { pose proof (strftime_http_plain (utcnow w)) as Hd.
    assert (Hu : Forall plain (unquote path ++ [SLASH]))
      by (apply Forall_app; split; [exact Hpl|plain_concrete]).
    unfold Server.redirect_headers, Server.date_header.
    repeat (apply Forall_cons; [plain_line|]). apply Forall_nil. }
  assert (Hresp : Server.handle_request w doc_root request
                  = Ok (Some (ascii_bytes
                                (join Server.CRLF
                                   (Server.redirect_headers w
                                      (unquote path ++ [SLASH])))
                              ++ Server.CRLFCRLF_b ++ []))).
  { rewrite (handle_request_resolve _ _ _ _ _ Ht Hdd). cbv zeta.
    rewrite Hend. cbn [andb]. rewrite (isdir_exists _ _ Hdir), Hdir.
    cbn [negb]. unfold Server.send_redirect.
    rewrite encode_utf8_ascii by (now apply head_ascii).
    cbn [bind]. now rewrite app_nil_r. }
  eapply http_get_received_bytes.
  - exact Henc.
  - unfold server_peer. rewrite Hresp. reflexivity.
  - repeat constructor. discriminate.
  - cbn [List.concat]. apply app_nil_r.
  - reflexivity.
  - apply parse_wire.
    + discriminate.
    + unfold Server.redirect_headers, Server.date_header.
      repeat (apply Forall_cons; [discriminate|]). apply Forall_nil.
    + exact Hlines.
Qed.

(** X17.  The client does not follow a redirect.  For a path of plain
    ASCII that names a directory and has no [/] at its end, a run of [main]
    against the handler reports the status 301 with the word [Moved] and
    stops: no second request, nothing else printed, nothing saved. *)
Theorem redirect_not_followed env w doc_root host port url_path
    save_directory :
  let path := if negb (startswith [SLASH] url_path) then [SLASH] ++ url_path
              else url_path in
  wire_path path -> encodable host ->
  Forall plain (unquote path) ->
  contains [DOT; DOT] (unquote path) = false ->
  endswith [SLASH] (unquote path) = false ->
  isdir w (path_join doc_root (lstrip1 SLASH (unquote path))) = true ->
  Driver.main env w (server_peer w doc_root) host port url_path save_directory
  = ([Driver.Print (ulit "Requesting: http://" ++ host ++ ulit ":"
                    ++ str_of_Z port ++ path);
      Driver.Print (ulit "Server responded with status code: 301 Moved")],
     Ok tt).
Proof.
  intros path Hw Hh Hpl Hdd Hend Hdir.
  destruct (request_text_encodable host port path Hh (wire_path_encodable _ Hw))
    as (request & Henc).
  pose proof (tokens_of_request _ _ _ _ Hw Henc) as Ht.
  pose proof (get_redirect_from_server w doc_root host port path request
                Henc Ht Hdd Hend Hdir Hpl) as Hget.
  unfold Server.redirect_headers in Hget.
  exact (main_error_status env w (server_peer w doc_root) host port url_path
           save_directory _ _ _ (ulit "HTTP/1.1") (ulit "301") 301%Z
           (ulit "Moved") [ulit "Permanently"] Hget eq_refl eq_refl
           ltac:(discriminate)).
Qed.

Lemma redirect_not_followed_witness :
  Driver.main sample_env sample_world (server_peer sample_world (ulit "www"))
    (ulit "localhost") 8080 (ulit "sub") (ulit "downloads")
  = ([Driver.Print (ulit "Requesting: http://localhost:8080/sub");
      Driver.Print (ulit "Server responded with status code: 301 Moved")],
     Ok tt).
Proof.
  apply (redirect_not_followed sample_env sample_world (ulit "www")
           (ulit "localhost") 8080 (ulit "sub") (ulit "downloads")).
  - now apply wire_path_check.
  - now apply encodable_check.
  - now apply header_safe_iff.
  - reflexivity.
  - reflexivity.
  - reflexivity.
Defined.
